(** * MIMO-OFDM link-level simulation script: model and checked properties

    Shallow embedding of [FullMimoOfdmSystemSimV1.0.py].  The script is glue
    over the Sionna physical-layer library: it picks parameters, wires
    library objects into a Keras model, defines one forward pass and drives
    a BER/BLER study.  The library itself is not part of the script, so it
    enters the development as an interface ([Sionna]) whose operations are
    parameters; the script's own code (constructor, [new_topology], [call],
    the study loop) is translated definition by definition.

    Conventions.
    - Python floats that the script only stores or compares are rationals
      ([Q]); every literal of the script is exactly such a decimal.
    - A library object is the record of the arguments it was built from;
      library constructors are taken to accept their arguments, so the
      only exception of [__init__] is the one the script can cause
      itself.
    - [call] is read as plain Python, one execution per invocation (the
      [tf.function] decorator only compiles it).
    - Effects (random draws, the topology installed in a channel model,
      exceptions) go through the monad [M] over a [World]; the world also
      keeps the chronological list of library calls. *)

From Stdlib Require Import ZArith QArith Qround List String Bool Lia.
From stdpp Require Import base option gmap.
Import ListNotations.

Local Open Scope Z_scope.
Local Open Scope string_scope.

(* ------------------------------------------------------------------ *)
(** ** Python numbers *)

Module Py.

(** [int(x)] on a float: truncation toward zero. *)
Definition int (x : Q) : Z := Z.quot (Qnum x) (Z.pos (Qden x)).

(** An integer used where a float is expected. *)
Definition float (n : Z) : Q := inject_Z n.

(** [n * x] and [n / d] with a float result. *)
Definition mul (x y : Q) : Q := Qmult x y.
Definition div (x y : Q) : Q := Qdiv x y.

(** Exceptions the script can raise by itself. *)
Inductive Exception : Type :=
| AttributeError (attr : string)
| IndexError.

Inductive Result (A : Type) : Type :=
| Ok (a : A)
| Raise (e : Exception).
Arguments Ok {A} a.
Arguments Raise {A} e.

End Py.

(* ------------------------------------------------------------------ *)
(** ** Library objects, as the arguments they are constructed from *)

Record ResourceGrid : Type := mkResourceGrid {
  rg_num_ofdm_symbols : Z;
  rg_fft_size : Z;
  rg_subcarrier_spacing : Q;
  rg_num_tx : Z;
  rg_num_streams_per_tx : Z;
  rg_cyclic_prefix_length : Z;
  rg_pilot_pattern : string;
  rg_pilot_ofdm_symbol_indices : list Z
}.

Record StreamManagement : Type := mkStreamManagement {
  sm_rx_tx_association : list (list Z);
  sm_num_streams_per_tx : Z
}.

Record AntennaArray : Type := mkAntennaArray {
  aa_num_rows : Z;
  aa_num_cols : Z;
  aa_polarization : string;
  aa_polarization_type : string;
  aa_antenna_pattern : string;
  aa_carrier_frequency : Q
}.

(** The four TR 38.901 channel models of [sionna.channel.tr38901]. *)
Inductive ChannelModel : Type :=
| UMi (carrier_frequency : Q) (o2i_model : string)
      (ut_array bs_array : AntennaArray) (direction : string)
      (enable_pathloss enable_shadow_fading : bool)
| UMa (carrier_frequency : Q) (o2i_model : string)
      (ut_array bs_array : AntennaArray) (direction : string)
      (enable_pathloss enable_shadow_fading : bool)
| RMa (carrier_frequency : Q)
      (ut_array bs_array : AntennaArray) (direction : string)
      (enable_pathloss enable_shadow_fading : bool)
| CDL (model : string) (delay_spread : Q) (carrier_frequency : Q)
      (ut_array bs_array : AntennaArray) (direction : string)
      (min_speed : Q).

(** A channel model is a mutable object: [set_topology] changes it and the
    [OFDMChannel] built on it sees the change.  The object is therefore a
    reference into the world's store together with its configuration. *)
Record ChannelModelObj : Type := mkChannelModelObj {
  cm_ref : nat;
  cm_config : ChannelModel
}.

Record BinarySource : Type := mkBinarySource { }.
Record QAMSource : Type := mkQAMSource { qs_num_bits_per_symbol : Z }.
Record LDPC5GEncoder : Type := mkLDPC5GEncoder { enc_k : Z; enc_n : Z }.
Record LDPC5GDecoder : Type := mkLDPC5GDecoder { dec_encoder : LDPC5GEncoder }.
Record Mapper : Type := mkMapper {
  map_constellation_type : string;
  map_num_bits_per_symbol : Z
}.
Record ResourceGridMapper : Type := mkResourceGridMapper {
  rgm_resource_grid : ResourceGrid
}.
Record OFDMChannel : Type := mkOFDMChannel {
  oc_channel_model : ChannelModelObj;
  oc_resource_grid : ResourceGrid;
  oc_add_awgn : bool;
  oc_normalize_channel : bool;
  oc_return_channel : bool
}.
Record RemoveNulledSubcarriers : Type := mkRemoveNulledSubcarriers {
  rns_resource_grid : ResourceGrid
}.
Record LSChannelEstimator : Type := mkLSChannelEstimator {
  ls_resource_grid : ResourceGrid;
  ls_interpolation_type : string
}.
Record LMMSEEqualizer : Type := mkLMMSEEqualizer {
  eq_resource_grid : ResourceGrid;
  eq_stream_management : StreamManagement
}.
Record Demapper : Type := mkDemapper {
  dm_demapping_method : string;
  dm_constellation_type : string;
  dm_num_bits_per_symbol : Z
}.

(** [err_var] is the float [0.0] on one path of [call] and a tensor on the
    other. *)
Inductive ErrVar (T : Type) : Type :=
| ErrFloat (x : Q)
| ErrTensor (t : T).
Arguments ErrFloat {T} x.
Arguments ErrTensor {T} t.

(* ------------------------------------------------------------------ *)
(** ** The library interface

    What the script calls and does not define.  Random blocks take and
    return the library's hidden state [Env]. *)

Class Sionna : Type := {
  Tensor : Type;
  Topology : Type;
  Env : Type;
  (** [ResourceGrid.num_data_symbols] *)
  num_data_symbols : ResourceGrid -> Z;
  (** [ebnodb2no(ebno_db, num_bits_per_symbol, coderate, resource_grid)] *)
  ebnodb2no : Q -> Z -> Q -> ResourceGrid -> Tensor;
  (** [BinarySource()(shape)] *)
  binary_source : BinarySource -> list Z -> Env -> Tensor * Env;
  encode : LDPC5GEncoder -> Tensor -> Tensor;
  map_bits : Mapper -> Tensor -> Tensor;
  map_rg : ResourceGridMapper -> Tensor -> Tensor;
  (** [OFDMChannel(...)([x, no])]: draws a channel from the channel model in
      its current topology, applies it, returns [(y, h)]. *)
  apply_channel : OFDMChannel -> option Topology -> Tensor -> Tensor ->
                  Env -> (Tensor * Tensor) * Env;
  remove_nulled : RemoveNulledSubcarriers -> Tensor -> Tensor;
  ls_estimate : LSChannelEstimator -> Tensor -> Tensor -> Tensor * Tensor;
  lmmse_equalize : LMMSEEqualizer -> Tensor -> Tensor -> ErrVar Tensor ->
                   Tensor -> Tensor * Tensor;
  demap : Demapper -> Tensor -> Tensor -> Tensor;
  decode : LDPC5GDecoder -> Tensor -> Tensor;
  (** [gen_single_sector_topology(batch_size, num_ut, scenario,
      min_ut_velocity=, max_ut_velocity=)] *)
  gen_topology : Z -> Z -> string -> Q -> Q -> Env -> Topology * Env;
  (** [tensor.shape] *)
  shape : Tensor -> list Z;
  (** number of positions where two bit tensors differ, and number of
      blocks (last dimension) where they differ somewhere *)
  count_errors : Tensor -> Tensor -> Z;
  count_block_errors : Tensor -> Tensor -> Z;
  (** [time.time()] *)
  time_time : Env -> Q * Env
}.

(* ------------------------------------------------------------------ *)
(** ** The attributes of a [MimoOfdmSystemModel] instance *)

Record MimoOfdmSystemModel : Type := mkModel {
  _scenario : string;
  _perfect_csi : bool;
  _direction : string;
  _speed : Q;
  _carrier_frequency : Q;
  _delay_spread : Q;
  _fft_size : Z;
  _subcarrier_spacing : Q;
  _num_ofdm_symbols : Z;
  _cyclic_prefix_length : Z;
  _pilot_ofdm_symbol_indices : list Z;
  _num_bs : Z;
  _num_bs_ant : Z;
  _num_ut : Z;
  _num_ut_ant : Z;
  _num_bits_per_symbol : Z;
  _coderate : Q;
  _rx_tx_association : list (list Z);
  _num_tx : Z;
  _num_streams_per_tx : Z;
  _rg : ResourceGrid;
  _sm : StreamManagement;
  _ut_array : AntennaArray;
  _bs_array : AntennaArray;
  _channel_model : ChannelModelObj;
  _binary_source : BinarySource;
  _qam_source : QAMSource;
  _n : Z;
  _k : Z;
  _encoder : LDPC5GEncoder;
  _decoder : LDPC5GDecoder;
  _mapper : Mapper;
  _rg_mapper : ResourceGridMapper;
  _ofdm_channel : OFDMChannel;
  _remove_nulled_subcarriers : RemoveNulledSubcarriers;
  _ls_est : LSChannelEstimator;
  _lmmse_equ : LMMSEEqualizer;
  _demapper : Demapper
}.

(* ------------------------------------------------------------------ *)
(** ** Worlds, events and the monad of the script *)

(** The blocks a forward pass can run. *)
Inductive Block : Type :=
| BlkEbnodb2no
| BlkBinarySource
| BlkEncoder
| BlkMapper
| BlkResourceGridMapper
| BlkOFDMChannel
| BlkRemoveNulledSubcarriers
| BlkLSChannelEstimator
| BlkLMMSEEqualizer
| BlkDemapper
| BlkDecoder.

(** What the world records of the library calls, in the order they occur. *)
Inductive Event : Type :=
| EvNew (class : string)
| EvGenTopology (batch_size num_ut : Z) (scenario : string)
                (min_ut_velocity max_ut_velocity : Q)
| EvSetTopology (ref : nat)
| EvRun (b : Block)
| EvSimBer (mc_fun : MimoOfdmSystemModel)
           (batch_size max_mc_iter num_target_block_errors : Z)
| EvTime.

Section Script.

Context {L : Sionna}.

Record World : Type := mkWorld {
  w_env : Env;
  (** topology currently installed in each channel-model object *)
  w_topology : gmap nat Topology;
  (** next free object reference *)
  w_next : nat;
  w_trace : list Event
}.

Definition M (A : Type) : Type := World -> Py.Result A * World.

Definition ret {A} (a : A) : M A := fun w => (Py.Ok a, w).

Definition bind {A B} (c : M A) (k : A -> M B) : M B :=
  fun w =>
    match c w with
    | (Py.Ok a, w') => k a w'
    | (Py.Raise e, w') => (Py.Raise e, w')
    end.

Definition raise {A} (e : Py.Exception) : M A := fun w => (Py.Raise e, w).

Definition log (e : Event) : M unit :=
  fun w => (Py.Ok tt,
            mkWorld (w_env w) (w_topology w) (w_next w)
                    (w_trace w ++ [e])%list).

(** A deterministic library call. *)
Definition pure_call {A} (b : Block) (a : A) : M A :=
  bind (log (EvRun b)) (fun _ => ret a).

(** A library call that draws from the hidden state. *)
Definition random_call {A} (b : Block) (f : Env -> A * Env) : M A :=
  bind (log (EvRun b)) (fun _ w =>
    let '(a, e') := f (w_env w) in
    (Py.Ok a, mkWorld e' (w_topology w) (w_next w) (w_trace w))).

(** Construction of a library object. *)
Definition new {A} (class : string) (a : A) : M A :=
  bind (log (EvNew class)) (fun _ => ret a).

(** Construction of a channel model: a fresh object, no topology yet. *)
Definition new_channel_model (class : string) (c : ChannelModel)
  : M ChannelModelObj :=
  bind (log (EvNew class)) (fun _ w =>
    (Py.Ok (mkChannelModelObj (w_next w) c),
     mkWorld (w_env w) (delete (w_next w) (w_topology w))
             (S (w_next w)) (w_trace w))).

(** Reading an attribute that [__init__] may not have assigned. *)
Definition getattr {A} (name : string) (slot : option A) : M A :=
  match slot with
  | Some a => ret a
  | None => raise (Py.AttributeError name)
  end.

(** [l[i]] for a non-negative literal index. *)
Definition getitem {A} (l : list A) (i : nat) : M A :=
  match nth_error l i with
  | Some a => ret a
  | None => raise Py.IndexError
  end.

End Script.

Declare Scope script_scope.
Delimit Scope script_scope with script.
Notation "x <- c ;; k" := (bind c (fun x => k))
  (at level 100, c at next level, right associativity) : script_scope.
Notation "c ;;; k" := (bind c (fun _ => k))
  (at level 100, right associativity) : script_scope.
Local Open Scope script_scope.

(* ------------------------------------------------------------------ *)
(** ** [MimoOfdmSystemModel]: constructor, [new_topology], [call] *)

Section Model.

Context {L : Sionna}.

(** [self._scenario == "A" or ... or self._scenario == "E"] *)
Definition is_cdl (scenario : string) : bool :=
  (scenario =? "A") || (scenario =? "B") || (scenario =? "C")
  || (scenario =? "D") || (scenario =? "E").

(** The [if]/[elif] chain of [__init__]: no [else], so [_channel_model]
    stays unassigned when no test succeeds. *)
Definition configure_channel_model
    (scenario : string) (delay_spread carrier_frequency : Q)
    (ut_array bs_array : AntennaArray) (direction : string) (speed : Q)
  : M (option ChannelModelObj) :=
  if scenario =? "umi" then
    cm <- new_channel_model "UMi"
            (UMi carrier_frequency "low" ut_array bs_array direction
                 false false) ;;
    ret (Some cm)
  else if scenario =? "uma" then
    cm <- new_channel_model "UMa"
            (UMa carrier_frequency "low" ut_array bs_array direction
                 false false) ;;
    ret (Some cm)
  else if scenario =? "rma" then
    cm <- new_channel_model "RMa"
            (RMa carrier_frequency ut_array bs_array direction
                 false false) ;;
    ret (Some cm)
  else if is_cdl scenario then
    cm <- new_channel_model "CDL"
            (CDL scenario delay_spread carrier_frequency
                 ut_array bs_array direction speed) ;;
    ret (Some cm)
  else ret None.

Definition __init__
    (scenario : string) (perfect_csi : bool) (direction : string)
    (speed carrier_frequency : Q) : M MimoOfdmSystemModel :=
  (* Internally set parameters *)
  let delay_spread : Q := 3 # 10000000 in      (* 300e-9 *)
  let fft_size := 76 in
  let subcarrier_spacing : Q := Py.float 30000 in   (* 30e3 *)
  let num_ofdm_symbols := 14 in
  let cyclic_prefix_length := 20 in
  let pilot_ofdm_symbol_indices := [2; 11] in
  let num_bs := 1 in
  let num_bs_ant := 8 in
  let num_ut := 1 in
  let num_ut_ant := 4 in
  let num_bits_per_symbol := 2 in
  let coderate : Q := 1 # 2 in                 (* 0.5 *)
  let bs_ut_association := [[1]] in
  let rx_tx_association := bs_ut_association in
  let num_tx := num_ut in
  let num_streams_per_tx := num_ut_ant in
  rg <- new "ResourceGrid"
          (mkResourceGrid num_ofdm_symbols fft_size subcarrier_spacing
             num_tx num_streams_per_tx cyclic_prefix_length "kronecker"
             pilot_ofdm_symbol_indices) ;;
  sm <- new "StreamManagement"
          (mkStreamManagement rx_tx_association num_streams_per_tx) ;;
  ut_array <- new "AntennaArray"
          (mkAntennaArray 1
             (Py.int (Py.div (Py.float num_ut_ant) (Py.float 2)))
             "dual" "cross" "38.901" carrier_frequency) ;;
  bs_array <- new "AntennaArray"
          (mkAntennaArray 1
             (Py.int (Py.div (Py.float num_bs_ant) (Py.float 2)))
             "dual" "cross" "38.901" carrier_frequency) ;;
  channel_model <- configure_channel_model scenario delay_spread
          carrier_frequency ut_array bs_array direction speed ;;
  binary_source <- new "BinarySource" mkBinarySource ;;
  qam_source <- new "QAMSource" (mkQAMSource num_bits_per_symbol) ;;
  (* [int] of an integer product is that product *)
  let n := num_data_symbols rg * num_bits_per_symbol in
  let k := Py.int (Py.mul (Py.float n) coderate) in
  encoder <- new "LDPC5GEncoder" (mkLDPC5GEncoder k n) ;;
  decoder <- new "LDPC5GDecoder" (mkLDPC5GDecoder encoder) ;;
  mapper <- new "Mapper" (mkMapper "qam" num_bits_per_symbol) ;;
  rg_mapper <- new "ResourceGridMapper" (mkResourceGridMapper rg) ;;
  the_channel_model <- getattr "_channel_model" channel_model ;;
  ofdm_channel <- new "OFDMChannel"
          (mkOFDMChannel the_channel_model rg true true true) ;;
  remove_nulled_subcarriers <- new "RemoveNulledSubcarriers"
          (mkRemoveNulledSubcarriers rg) ;;
  ls_est <- new "LSChannelEstimator" (mkLSChannelEstimator rg "nn") ;;
  lmmse_equ <- new "LMMSEEqualizer" (mkLMMSEEqualizer rg sm) ;;
  demapper <- new "Demapper" (mkDemapper "app" "qam" num_bits_per_symbol) ;;
  ret (mkModel scenario perfect_csi direction speed carrier_frequency
         delay_spread fft_size subcarrier_spacing num_ofdm_symbols
         cyclic_prefix_length pilot_ofdm_symbol_indices
         num_bs num_bs_ant num_ut num_ut_ant num_bits_per_symbol coderate
         rx_tx_association num_tx num_streams_per_tx
         rg sm ut_array bs_array the_channel_model
         binary_source qam_source n k encoder decoder mapper rg_mapper
         ofdm_channel remove_nulled_subcarriers ls_est lmmse_equ demapper).

(** [gen_topology(...)]: a random draw. *)
Definition call_gen_topology
    (batch_size num_ut : Z) (scenario : string) (vmin vmax : Q)
  : M Topology :=
  log (EvGenTopology batch_size num_ut scenario vmin vmax) ;;;
  fun w =>
    let '(t, e') := gen_topology batch_size num_ut scenario vmin vmax
                      (w_env w) in
    (Py.Ok t, mkWorld e' (w_topology w) (w_next w) (w_trace w)).

(** [channel_model.set_topology] on the unpacked topology: mutates the
    object. *)
Definition set_topology (cm : ChannelModelObj) (t : Topology) : M unit :=
  log (EvSetTopology (cm_ref cm)) ;;;
  fun w =>
    (Py.Ok tt,
     mkWorld (w_env w) (<[cm_ref cm := t]> (w_topology w))
             (w_next w) (w_trace w)).

Definition new_topology (self : MimoOfdmSystemModel) (batch_size : Z)
  : M unit :=
  topology <- call_gen_topology batch_size (_num_ut self) (_scenario self)
                (_speed self) (_speed self) ;;
  set_topology (_channel_model self) topology.

(** [self._ofdm_channel([x_rg, no])]: the channel object reads the
    topology of the channel model it was built on. *)
Definition call_ofdm_channel (oc : OFDMChannel) (x_rg no : Tensor)
  : M (Tensor * Tensor) :=
  log (EvRun BlkOFDMChannel) ;;;
  fun w =>
    let '(yh, e') :=
      apply_channel oc (w_topology w !! cm_ref (oc_channel_model oc))
                    x_rg no (w_env w) in
    (Py.Ok yh, mkWorld e' (w_topology w) (w_next w) (w_trace w)).

(** The [if self._perfect_csi: ... else: ...] of [call]. *)
Definition channel_state (self : MimoOfdmSystemModel) (y h no : Tensor)
  : M (Tensor * ErrVar Tensor) :=
  if _perfect_csi self then
    h_hat <- pure_call BlkRemoveNulledSubcarriers
               (remove_nulled (_remove_nulled_subcarriers self) h) ;;
    let err_var := ErrFloat 0%Q in
    ret (h_hat, err_var)
  else
    est <- pure_call BlkLSChannelEstimator
             (ls_estimate (_ls_est self) y no) ;;
    let '(h_hat, err_var) := est in
    ret (h_hat, ErrTensor err_var).

Definition call (self : MimoOfdmSystemModel) (batch_size : Z) (ebno_db : Q)
  : M (Tensor * Tensor) :=
  (if (_scenario self =? "umi") || (_scenario self =? "uma")
      || (_scenario self =? "rma")
   then new_topology self batch_size
   else ret tt) ;;;
  no <- pure_call BlkEbnodb2no
          (ebnodb2no ebno_db (_num_bits_per_symbol self) (_coderate self)
                     (_rg self)) ;;
  b <- random_call BlkBinarySource
          (binary_source (_binary_source self)
             [batch_size; _num_tx self; _num_streams_per_tx self;
              _k self]) ;;
  c <- pure_call BlkEncoder (encode (_encoder self) b) ;;
  x <- pure_call BlkMapper (map_bits (_mapper self) c) ;;
  x_rg <- pure_call BlkResourceGridMapper (map_rg (_rg_mapper self) x) ;;
  yh <- call_ofdm_channel (_ofdm_channel self) x_rg no ;;
  let '(y, h) := yh in
  csi <- channel_state self y h no ;;
  let '(h_hat, err_var) := csi in
  eqz <- pure_call BlkLMMSEEqualizer
          (lmmse_equalize (_lmmse_equ self) y h_hat err_var no) ;;
  let '(x_hat, no_eff) := eqz in
  llr <- pure_call BlkDemapper (demap (_demapper self) x_hat no_eff) ;;
  b_hat <- pure_call BlkDecoder (decode (_decoder self) llr) ;;
  ret (b, b_hat).

End Model.

(* ------------------------------------------------------------------ *)
(** ** [sim_ber]

    The study calls [sionna.utils.sim_ber]; its code is the library's.  *)

(** Error counts of one simulated batch. *)
Record BatchStats : Type := mkBatchStats {
  bs_bit_errors : Z;
  bs_block_errors : Z;
  bs_bits : Z;
  bs_blocks : Z
}.

Definition total (f : BatchStats -> Z) (h : list BatchStats) : Z :=
  fold_right (fun s acc => f s + acc) 0 h.

Definition num_elements (s : list Z) : Z := fold_right Z.mul 1 s.

Definition rate (errors count : Z) : Q :=
  Qred (Qdiv (inject_Z errors) (inject_Z count)).

Definition ber_of (h : list BatchStats) : Q :=
  rate (total bs_bit_errors h) (total bs_bits h).

Definition bler_of (h : list BatchStats) : Q :=
  rate (total bs_block_errors h) (total bs_blocks h).

Section SimBer.

Context {L : Sionna}.

Definition batch_stats (b b_hat : Tensor) : BatchStats :=
  mkBatchStats (count_errors b b_hat) (count_block_errors b b_hat)
               (num_elements (shape b))
               (num_elements (removelast (shape b))).

(** Modelled from the spec: the Monte-Carlo loop of [sim_ber] for one
    Eb/N0 point, which is library code.  It simulates one batch after the
    other, adds up the errors, stops as soon as the block errors added up
    so far reach the target, and in any case after [fuel] batches.  The
    result lists the batches it simulated, oldest first. *)
Fixpoint mc_loop (mc_fun : MimoOfdmSystemModel) (ebno_db : Q)
    (batch_size num_target_block_errors : Z) (fuel : nat)
    (done : list BatchStats) : M (list BatchStats) :=
  match fuel with
  | O => ret done
  | S fuel' =>
      out <- call mc_fun batch_size ebno_db ;;
      let '(b, b_hat) := out in
      let done' := (done ++ [batch_stats b b_hat])%list in
      if Z.leb num_target_block_errors (total bs_block_errors done')
      then ret done'
      else mc_loop mc_fun ebno_db batch_size num_target_block_errors
                   fuel' done'
  end.

(** Modelled from the spec: the sweep of [sim_ber] over the Eb/N0 points,
    one Monte-Carlo loop of at most [max_mc_iter] batches per point. *)
Fixpoint sim_points (mc_fun : MimoOfdmSystemModel) (ebno_dbs : list Q)
    (batch_size max_mc_iter num_target_block_errors : Z)
  : M (list (list BatchStats)) :=
  match ebno_dbs with
  | [] => ret []
  | ebno_db :: rest =>
      h <- mc_loop mc_fun ebno_db batch_size num_target_block_errors
                   (Z.to_nat max_mc_iter) [] ;;
      hs <- sim_points mc_fun rest batch_size max_mc_iter
                       num_target_block_errors ;;
      ret (h :: hs)
  end.

(** Modelled from the spec: [sim_ber(mc_fun, ebno_dbs, batch_size=,
    max_mc_iter=, num_target_block_errors=)], which is library code: the
    Monte-Carlo BER/BLER estimation with early stopping on the target
    block-error count; it returns one BER and one BLER per Eb/N0 point. *)
Definition sim_ber (mc_fun : MimoOfdmSystemModel) (ebno_dbs : list Q)
    (batch_size max_mc_iter num_target_block_errors : Z)
  : M (list Q * list Q) :=
  log (EvSimBer mc_fun batch_size max_mc_iter num_target_block_errors) ;;;
  hs <- sim_points mc_fun ebno_dbs batch_size max_mc_iter
                   num_target_block_errors ;;
  ret (map ber_of hs, map bler_of hs).

End SimBer.

(* ------------------------------------------------------------------ *)
(** ** The mobility study *)

(** [np.arange(start, stop, step)] turned into a list. *)
Definition np_arange (start stop step : Q) : list Q :=
  map (fun i => Qred (start + inject_Z (Z.of_nat i) * step))
      (seq 0 (Z.to_nat (Qceiling ((stop - start) / step)))).

(** The dictionary [MOBILITY_SIMS]; its keys are fixed, one field each. *)
Record Study : Type := mkStudy {
  st_ebno_db : list Q;
  st_scenario : list string;
  st_perfect_csi : list bool;
  st_direction : list string;
  st_carrier_frequency : list Q;
  st_speed : list Q;
  st_ber : list (list Q);
  st_bler : list (list Q);
  st_duration : option Q
}.

Definition MOBILITY_SIMS : Study :=
  mkStudy (np_arange (-5 # 1) (15 # 1) (1 # 1))
          ["umi"]
          [true; false]
          ["uplink"; "downlink"]
          [3500000000 # 1; 28000000000 # 1; 60000000000 # 1]
          [0 # 1; 15 # 1; 30 # 1]
          [] [] None.

Section Driver.

Context {L : Sionna}.

Definition call_time : M Q :=
  log EvTime ;;;
  fun w =>
    let '(t, e') := time_time (w_env w) in
    (Py.Ok t, mkWorld e' (w_topology w) (w_next w) (w_trace w)).

(** [for scenario in MOBILITY_SIMS["scenario"]: ...]; the loops over the
    speeds and the carrier frequencies are commented out in the script,
    [speed] and [c_freq] are fixed before the loop. *)
Fixpoint scenario_loop (sims : Study) (speed c_freq : Q)
    (scenarios : list string) : M Study :=
  match scenarios with
  | [] => ret sims
  | scenario :: rest =>
      perfect_csi <- getitem (st_perfect_csi sims) 1 ;;
      direction <- getitem (st_direction sims) 0 ;;
      model <- __init__ scenario perfect_csi direction speed c_freq ;;
      curves <- sim_ber model (st_ebno_db sims) 76 100 1000 ;;
      let '(ber, bler) := curves in
      let sims' :=
        mkStudy (st_ebno_db sims) (st_scenario sims) (st_perfect_csi sims)
                (st_direction sims) (st_carrier_frequency sims)
                (st_speed sims)
                (st_ber sims ++ [ber])%list (st_bler sims ++ [bler])%list
                (st_duration sims) in
      scenario_loop sims' speed c_freq rest
  end.

Definition run_study (sims : Study) : M Study :=
  speed <- getitem (st_speed sims) 0 ;;
  c_freq <- getitem (st_carrier_frequency sims) 0 ;;
  start <- call_time ;;
  sims' <- scenario_loop sims speed c_freq (st_scenario sims) ;;
  stop <- call_time ;;
  ret (mkStudy (st_ebno_db sims') (st_scenario sims')
               (st_perfect_csi sims') (st_direction sims')
               (st_carrier_frequency sims') (st_speed sims')
               (st_ber sims') (st_bler sims')
               (Some (stop - start)%Q)).

End Driver.

(* ------------------------------------------------------------------ *)
(** ** A small executable instance of the interface

    Tensors are represented by their shapes, following the shapes the
    library documents for each block; the hidden state is a counter.  It is
    used to run the script's code on concrete inputs. *)

Module Toy.

Definition set_last (s : list Z) (d : Z) : list Z :=
  (removelast s ++ [d])%list.

Definition data_symbols (rg : ResourceGrid) : Z :=
  rg_fft_size rg *
  (rg_num_ofdm_symbols rg
   - Z.of_nat (List.length (rg_pilot_ofdm_symbol_indices rg))).

Definition channel_out (oc : OFDMChannel) (x : list Z)
  : list Z * list Z :=
  let rg := oc_resource_grid oc in
  let b := hd 0 x in
  ([b; 1; 8; rg_num_ofdm_symbols rg; rg_fft_size rg],
   [b; 1; 8; rg_num_tx rg; rg_num_streams_per_tx rg;
    rg_num_ofdm_symbols rg; rg_fft_size rg]).

Definition equalized (eq : LMMSEEqualizer) (y : list Z) : list Z :=
  let rg := eq_resource_grid eq in
  [hd 0 y; rg_num_tx rg; rg_num_streams_per_tx rg; data_symbols rg].

#[export] Instance lib : Sionna := {|
  Tensor := list Z;
  Topology := Z;
  Env := Z;
  num_data_symbols := data_symbols;
  ebnodb2no := fun _ _ _ _ => [];
  binary_source := fun _ s e => (s, e + 1);
  encode := fun enc t => set_last t (enc_n enc);
  map_bits := fun m t =>
    set_last t (List.last t 0 / map_num_bits_per_symbol m);
  map_rg := fun rgm t =>
    let rg := rgm_resource_grid rgm in
    (firstn 3 t ++ [rg_num_ofdm_symbols rg; rg_fft_size rg])%list;
  apply_channel := fun oc _ x _ e => (channel_out oc x, e + 1);
  remove_nulled := fun _ h => h;
  ls_estimate := fun ls y _ =>
    let rg := ls_resource_grid ls in
    let h := [hd 0 y; 1; 8; rg_num_tx rg; rg_num_streams_per_tx rg;
              rg_num_ofdm_symbols rg; rg_fft_size rg] in
    (h, h);
  lmmse_equalize := fun eq y _ _ _ => (equalized eq y, equalized eq y);
  demap := fun dm x _ =>
    set_last x (List.last x 0 * dm_num_bits_per_symbol dm);
  decode := fun dec t => set_last t (enc_k (dec_encoder dec));
  gen_topology := fun _ _ _ _ _ e => (e, e + 1);
  shape := fun t => t;
  count_errors := fun _ _ => 500;
  count_block_errors := fun _ _ => 300;
  time_time := fun e => (inject_Z e, e + 1)
|}.

Definition world0 : World := mkWorld (0 : Z) ∅ 0%nat [].

End Toy.

(* ------------------------------------------------------------------ *)
(** ** Vocabulary of the statements *)

Definition supported_scenarios : list string :=
  ["umi"; "uma"; "rma"; "A"; "B"; "C"; "D"; "E"].

Definition stochastic_scenarios : list string := ["umi"; "uma"; "rma"].

Definition cdl_scenarios : list string := ["A"; "B"; "C"; "D"; "E"].

(** The resource grid and the antenna arrays every model is built on. *)
Definition the_rg : ResourceGrid :=
  mkResourceGrid 14 76 (Py.float 30000) 1 4 20 "kronecker" [2; 11].

Definition the_array (num_cols : Z) (carrier_frequency : Q) : AntennaArray :=
  mkAntennaArray 1 num_cols "dual" "cross" "38.901" carrier_frequency.

(** [call] draws a new topology for these scenarios only. *)
Definition draws_topology (scenario : string) : bool :=
  (scenario =? "umi") || (scenario =? "uma") || (scenario =? "rma").

(** The events of the topology step of [call]. *)
Definition topology_events (self : MimoOfdmSystemModel) (batch_size : Z)
  : list Event :=
  if draws_topology (_scenario self) then
    [EvGenTopology batch_size (_num_ut self) (_scenario self)
                   (_speed self) (_speed self);
     EvSetTopology (cm_ref (_channel_model self))]
  else [].

(** The block that provides the channel state. *)
Definition csi_block (self : MimoOfdmSystemModel) : Block :=
  if _perfect_csi self then BlkRemoveNulledSubcarriers
  else BlkLSChannelEstimator.

(** The blocks of one forward pass, in the order they run. *)
Definition forward_blocks (self : MimoOfdmSystemModel) : list Block :=
  [BlkEbnodb2no; BlkBinarySource; BlkEncoder; BlkMapper;
   BlkResourceGridMapper; BlkOFDMChannel; csi_block self;
   BlkLMMSEEqualizer; BlkDemapper; BlkDecoder].

Definition call_events (self : MimoOfdmSystemModel) (batch_size : Z)
  : list Event :=
  (topology_events self batch_size ++ map EvRun (forward_blocks self))%list.

Definition Block_eqb (a b : Block) : bool :=
  match a, b with
  | BlkEbnodb2no, BlkEbnodb2no
  | BlkBinarySource, BlkBinarySource
  | BlkEncoder, BlkEncoder
  | BlkMapper, BlkMapper
  | BlkResourceGridMapper, BlkResourceGridMapper
  | BlkOFDMChannel, BlkOFDMChannel
  | BlkRemoveNulledSubcarriers, BlkRemoveNulledSubcarriers
  | BlkLSChannelEstimator, BlkLSChannelEstimator
  | BlkLMMSEEqualizer, BlkLMMSEEqualizer
  | BlkDemapper, BlkDemapper
  | BlkDecoder, BlkDecoder => true
  | _, _ => false
  end.

(** How often a block runs in a list of events. *)
Definition runs_of (b : Block) (evs : list Event) : nat :=
  List.length
    (List.filter (fun e => match e with
                           | EvRun b' => Block_eqb b b'
                           | _ => false
                           end) evs).

(** Is the event a change of, or a draw for, a topology? *)
Definition touches_topology (e : Event) : bool :=
  match e with
  | EvGenTopology _ _ _ _ _ | EvSetTopology _ => true
  | _ => false
  end.

(** The simulations started in a list of events: for each call of
    [sim_ber], the scenario, CSI flag, direction, speed and carrier
    frequency of the model it was given. *)
Definition simulations (evs : list Event)
  : list (string * bool * string * Q * Q) :=
  flat_map (fun e => match e with
                     | EvSimBer m _ _ _ =>
                         [(_scenario m, _perfect_csi m, _direction m,
                           _speed m, _carrier_frequency m)]
                     | _ => []
                     end) evs.

(** The same model with another [_speed] attribute. *)
Definition with_speed (m : MimoOfdmSystemModel) (speed : Q)
  : MimoOfdmSystemModel :=
  mkModel (_scenario m) (_perfect_csi m) (_direction m) speed
    (_carrier_frequency m) (_delay_spread m) (_fft_size m)
    (_subcarrier_spacing m) (_num_ofdm_symbols m) (_cyclic_prefix_length m)
    (_pilot_ofdm_symbol_indices m) (_num_bs m) (_num_bs_ant m) (_num_ut m)
    (_num_ut_ant m) (_num_bits_per_symbol m) (_coderate m)
    (_rx_tx_association m) (_num_tx m) (_num_streams_per_tx m) (_rg m)
    (_sm m) (_ut_array m) (_bs_array m) (_channel_model m)
    (_binary_source m) (_qam_source m) (_n m) (_k m) (_encoder m)
    (_decoder m) (_mapper m) (_rg_mapper m) (_ofdm_channel m)
    (_remove_nulled_subcarriers m) (_ls_est m) (_lmmse_equ m) (_demapper m).

Section Vocabulary.

Context {L : Sionna}.

(** The world after the topology step of [call]. *)
Definition topology_step (self : MimoOfdmSystemModel) (batch_size : Z)
    (w : World) : World :=
  if draws_topology (_scenario self) then
    let '(t, e') := gen_topology batch_size (_num_ut self)
                      (_scenario self) (_speed self) (_speed self)
                      (w_env w) in
    mkWorld e' (<[cm_ref (_channel_model self) := t]> (w_topology w))
            (w_next w) (w_trace w ++ topology_events self batch_size)%list
  else w.

(** The channel state [call] hands to the equalizer. *)
Definition channel_state_of (self : MimoOfdmSystemModel) (y h no : Tensor)
  : Tensor * ErrVar Tensor :=
  if _perfect_csi self then
    (remove_nulled (_remove_nulled_subcarriers self) h, ErrFloat 0%Q)
  else
    (fst (ls_estimate (_ls_est self) y no),
     ErrTensor (snd (ls_estimate (_ls_est self) y no))).

(** The receiver chain of [call] as a function of what the channel
    returned. *)
Definition receive (self : MimoOfdmSystemModel) (y h no : Tensor)
  : Tensor :=
  let '(h_hat, err_var) := channel_state_of self y h no in
  let '(x_hat, no_eff) :=
    lmmse_equalize (_lmmse_equ self) y h_hat err_var no in
  decode (_decoder self) (demap (_demapper self) x_hat no_eff).

(** The transmitter chain of [call]. *)
Definition transmit (self : MimoOfdmSystemModel) (b : Tensor) : Tensor :=
  map_rg (_rg_mapper self)
         (map_bits (_mapper self) (encode (_encoder self) b)).

End Vocabulary.

(** The shapes the library documents for the blocks of the chain. *)
Class ShapeContract (L : Sionna) : Prop := {
  binary_source_shape : forall bs s e,
    shape (fst (binary_source bs s e)) = s;
  encode_shape : forall enc t pre,
    shape t = (pre ++ [enc_k enc])%list ->
    shape (encode enc t) = (pre ++ [enc_n enc])%list;
  map_bits_shape : forall m t pre len,
    0 < map_num_bits_per_symbol m ->
    shape t = (pre ++ [len * map_num_bits_per_symbol m])%list ->
    shape (map_bits m t) = (pre ++ [len])%list;
  map_rg_shape : forall rgm t b,
    let rg := rgm_resource_grid rgm in
    shape t = [b; rg_num_tx rg; rg_num_streams_per_tx rg;
               num_data_symbols rg] ->
    shape (map_rg rgm t) = [b; rg_num_tx rg; rg_num_streams_per_tx rg;
                            rg_num_ofdm_symbols rg; rg_fft_size rg];
  apply_channel_shape : forall oc topo x no e b rest,
    shape x = b :: rest ->
    exists rest', shape (fst (fst (apply_channel oc topo x no e))) = b :: rest';
  lmmse_equalize_shape : forall eq y h_hat err_var no b rest,
    let rg := eq_resource_grid eq in
    shape y = b :: rest ->
    shape (fst (lmmse_equalize eq y h_hat err_var no))
    = [b; rg_num_tx rg; rg_num_streams_per_tx rg; num_data_symbols rg];
  demap_shape : forall dm x no_eff pre len,
    shape x = (pre ++ [len])%list ->
    shape (demap dm x no_eff)
    = (pre ++ [len * dm_num_bits_per_symbol dm])%list;
  decode_shape : forall dec llr pre,
    shape llr = (pre ++ [enc_n (dec_encoder dec)])%list ->
    shape (decode dec llr) = (pre ++ [enc_k (dec_encoder dec)])%list
}.

(** "For each combination of speed, carrier frequency and CSI assumption
    listed in the study configuration a simulation is run": every listed
    combination occurs among the simulations of the events. *)
Definition sweeps_every_combination (sims : Study) (evs : list Event)
  : Prop :=
  forall speed c_freq perfect_csi,
    In speed (st_speed sims) ->
    In c_freq (st_carrier_frequency sims) ->
    In perfect_csi (st_perfect_csi sims) ->
    exists scenario direction,
      In (scenario, perfect_csi, direction, speed, c_freq) (simulations evs).

(** What the early-stopping loop guarantees about the batches [h] it
    simulated for one Eb/N0 point. *)
Definition early_stopped (max_mc_iter target : Z) (h : list BatchStats)
  : Prop :=
  Z.of_nat (List.length h) <= max_mc_iter
  /\ (forall j, (1 <= j < List.length h)%nat ->
                total bs_block_errors (firstn j h) < target)
  /\ (Z.of_nat (List.length h) < max_mc_iter ->
      target <= total bs_block_errors h).

(** The study with another list under ["scenario"]. *)
Definition with_scenarios (sims : Study) (scenarios : list string) : Study :=
  mkStudy (st_ebno_db sims) scenarios (st_perfect_csi sims)
          (st_direction sims) (st_carrier_frequency sims) (st_speed sims)
          (st_ber sims) (st_bler sims) (st_duration sims).

(** Number of batches simulated over all Eb/N0 points. *)
Definition batches (hs : list (list BatchStats)) : nat :=
  fold_right (fun h acc => (List.length h + acc)%nat) 0%nat hs.

(* ------------------------------------------------------------------ *)
(** ** The two plotting cells

    After the study the script draws the BLER curves and then the BER
    curves.  The calls to [matplotlib] are recorded as commands on a
    canvas; the script's own part is the loop that picks a title for each
    scenario, indexes the recorded curves and builds the legend.  [t] is a
    module-level variable: it survives from one iteration, and from one
    cell, to the next. *)

Module Plt.

(** Exceptions the plotting cells can raise by themselves. *)
Inductive Exception : Type :=
| IndexError
| NameError (name : string).

Inductive Result (A : Type) : Type :=
| Ok (a : A)
| Raise (e : Exception).
Arguments Ok {A} a.
Arguments Raise {A} e.

(** The arguments of ["{} - {} CSI at {}[GHz]".format(...)]. *)
Record Label : Type := mkLabel {
  lb_title : string;
  lb_csi : string;
  lb_ghz : Q
}.

Inductive Cmd : Type :=
| figure
| xlabel (s : string)
| ylabel (s : string)
| grid (which : string)
| semilogy (x y : list Q)
| legend (labels : list Label)
| ylim (lo hi : Q).

Record State : Type := mkState {
  (** the variable [t], unbound until a branch assigns it *)
  g_t : option string;
  (** the commands issued so far, oldest first *)
  canvas : list Cmd
}.

Definition M (A : Type) : Type := State -> Result A * State.

Definition ret {A} (a : A) : M A := fun s => (Ok a, s).

Definition bind {A B} (c : M A) (k : A -> M B) : M B :=
  fun s =>
    match c s with
    | (Ok a, s') => k a s'
    | (Raise e, s') => (Raise e, s')
    end.

Definition raise {A} (e : Exception) : M A := fun s => (Raise e, s).

(** A call to [plt]. *)
Definition emit (c : Cmd) : M unit :=
  fun s => (Ok tt, mkState (g_t s) (canvas s ++ [c])%list).

(** [l[i]] *)
Definition getitem {A} (l : list A) (i : nat) : M A :=
  match nth_error l i with
  | Some a => ret a
  | None => raise IndexError
  end.

(** The [if]/[elif] chain on the scenario: no [else], so [t] keeps its
    value when no test succeeds. *)
Definition choose_title (scenario : string) : M unit :=
  fun s =>
    let t :=
      if scenario =? "umi" then Some "UMi"
      else if scenario =? "uma" then Some "UMa"
      else if scenario =? "rma" then Some "RMa"
      else if scenario =? "A" then Some "CDL-A"
      else if scenario =? "B" then Some "CDL-B"
      else if scenario =? "C" then Some "CDL-C"
      else if scenario =? "D" then Some "CDL-D"
      else if scenario =? "E" then Some "CDL-E"
      else g_t s in
    (Ok tt, mkState t (canvas s)).

(** Reading [t]. *)
Definition read_t : M string :=
  fun s =>
    match g_t s with
    | Some t => (Ok t, s)
    | None => (Raise (NameError "t"), s)
    end.

(** [for scenario in MOBILITY_SIMS["scenario"]: ...] of a plotting cell;
    [results] is the entry of the dictionary the cell draws. *)
Fixpoint plot_loop (ebno_db : list Q) (results : list (list Q)) (c_freq : Q)
    (scenarios : list string) (i : nat) (labels : list Label)
  : M (list Label) :=
  match scenarios with
  | [] => ret labels
  | scenario :: rest =>
      bind (choose_title scenario) (fun _ =>
      bind (getitem results i) (fun curve =>
      bind (emit (semilogy ebno_db curve)) (fun _ =>
      bind read_t (fun t =>
      let s := mkLabel t "Imperf." (Py.div c_freq (1000000000 # 1)) in
      plot_loop ebno_db results c_freq rest (S i) (labels ++ [s])%list))))
  end.

(** One plotting cell. *)
Definition plot_cell (metric : string) (ebno_db : list Q)
    (results : list (list Q)) (c_freq : Q) (scenarios : list string)
  : M unit :=
  bind (emit figure) (fun _ =>
  bind (emit (xlabel "$E_b/N_0$ (dB)")) (fun _ =>
  bind (emit (ylabel metric)) (fun _ =>
  bind (emit (grid "both")) (fun _ =>
  bind (plot_loop ebno_db results c_freq scenarios 0 []) (fun labels =>
  bind (emit (legend labels)) (fun _ =>
  emit (ylim (1 # 1000) (1 # 1)))))))).

(** The BLER cell, then the BER cell. *)
Definition plot_cells (sims : Study) (c_freq : Q) : M unit :=
  bind (plot_cell "BLER" (st_ebno_db sims) (st_bler sims) c_freq
                  (st_scenario sims)) (fun _ =>
  plot_cell "BER" (st_ebno_db sims) (st_ber sims) c_freq
            (st_scenario sims)).

(** Nothing drawn, [t] unbound: the state in which the first cell starts. *)
Definition start : State := mkState None [].

End Plt.

(** The title the plotting cells give to a supported scenario. *)
Definition title_of (scenario : string) : string :=
  if scenario =? "umi" then "UMi"
  else if scenario =? "uma" then "UMa"
  else if scenario =? "rma" then "RMa"
  else "CDL-" ++ scenario.

(** The label of a scenario that has its own title. *)
Definition label_of (c_freq : Q) (scenario : string) : Plt.Label :=
  Plt.mkLabel (title_of scenario) "Imperf."
              (Py.div c_freq (1000000000 # 1)).

(** The curves a cell draws when it pairs the scenarios with the recorded
    results in order. *)
Definition curves_of (ebno_db : list Q) (results : list (list Q))
  : list Plt.Cmd :=
  map (Plt.semilogy ebno_db) results.

(** Is the event a clock reading? *)
Definition is_time (e : Event) : bool :=
  match e with
  | EvTime => true
  | _ => false
  end.

(** The arguments a channel model was built from. *)
Definition cm_carrier_frequency (c : ChannelModel) : Q :=
  match c with
  | UMi f _ _ _ _ _ _ | UMa f _ _ _ _ _ _ | RMa f _ _ _ _ _
  | CDL _ _ f _ _ _ _ => f
  end.

Definition cm_ut_array (c : ChannelModel) : AntennaArray :=
  match c with
  | UMi _ _ ut _ _ _ _ | UMa _ _ ut _ _ _ _ | RMa _ ut _ _ _ _
  | CDL _ _ _ ut _ _ _ => ut
  end.

Definition cm_bs_array (c : ChannelModel) : AntennaArray :=
  match c with
  | UMi _ _ _ bs _ _ _ | UMa _ _ _ bs _ _ _ | RMa _ _ bs _ _ _
  | CDL _ _ _ _ bs _ _ => bs
  end.

Definition cm_direction (c : ChannelModel) : string :=
  match c with
  | UMi _ _ _ _ d _ _ | UMa _ _ _ _ d _ _ | RMa _ _ _ d _ _
  | CDL _ _ _ _ _ d _ => d
  end.

(** No event of the list is a clock reading. *)
Definition no_clock (evs : list Event) : Prop :=
  forallb (fun e => negb (is_time e)) evs = true.

(** What a plotting cell puts on the canvas when it draws the curves
    [results] and the legend [labels]. *)
Definition cell_canvas (metric : string) (ebno_db : list Q)
    (results : list (list Q)) (labels : list Plt.Label) : list Plt.Cmd :=
  ([Plt.figure; Plt.xlabel "$E_b/N_0$ (dB)"; Plt.ylabel metric;
    Plt.grid "both"]
   ++ curves_of ebno_db results
   ++ [Plt.legend labels; Plt.ylim (1 # 1000) (1 # 1)])%list.

Section Recorded.

Context {L : Sionna}.

(** [bers] and [blers] are, scenario by scenario and in this order, the BER
    list and the BLER list that [sim_ber] returned, with the settings of
    the study, for a model constructed for that scenario with the given
    speed, carrier frequency, CSI flag and direction; the world goes from
    [w] to [w'] through these constructions and simulations. *)
Fixpoint simulated_curves (speed c_freq : Q) (perfect_csi : bool)
    (direction : string) (ebno_db : list Q) (scenarios : list string)
    (w : World) (bers blers : list (list Q)) (w' : World) : Prop :=
  match scenarios, bers, blers with
  | [], [], [] => w' = w
  | scenario :: rest, ber :: bers', bler :: blers' =>
      exists model w1 w2,
        __init__ scenario perfect_csi direction speed c_freq w
          = (Py.Ok model, w1)
        /\ sim_ber model ebno_db 76 100 1000 w1 = (Py.Ok (ber, bler), w2)
        /\ simulated_curves speed c_freq perfect_csi direction ebno_db rest
                            w2 bers' blers' w'
  | _, _, _ => False
  end.

End Recorded.

(* ================================================================== *)
(** * Properties *)

(* ------------------------------------------------------------------ *)
(** ** The forward pass *)

Section ForwardPass.

Context {L : Sionna}.

Lemma topology_step_trace (self : MimoOfdmSystemModel) (batch_size : Z)
    (w : World) :
  w_trace (topology_step self batch_size w)
  = (w_trace w ++ topology_events self batch_size)%list.
Proof.
  unfold topology_step, topology_events.
  destruct (draws_topology (_scenario self)).
  - now destruct (gen_topology _ _ _ _ _ _).
  - now rewrite app_nil_r.
Qed.

Lemma topology_step_next (self : MimoOfdmSystemModel) (batch_size : Z)
    (w : World) :
  w_next (topology_step self batch_size w) = w_next w.
Proof.
  unfold topology_step.
  destruct (draws_topology (_scenario self)); [|reflexivity].
  now destruct (gen_topology _ _ _ _ _ _).
Qed.

Lemma new_topology_run (self : MimoOfdmSystemModel) (batch_size : Z)
    (w : World) :
  draws_topology (_scenario self) = true ->
  new_topology self batch_size w
  = (Py.Ok tt, topology_step self batch_size w).
Proof.
  intros Hd.
  unfold new_topology, topology_step, topology_events, call_gen_topology,
    set_topology, bind, log.
  rewrite Hd. cbn.
  destruct (gen_topology _ _ _ _ _ _) as [t e']. cbn.
  now rewrite <- app_assoc.
Qed.

Lemma channel_state_run (self : MimoOfdmSystemModel) (y h no : Tensor)
    (w : World) :
  channel_state self y h no w =
  (Py.Ok (channel_state_of self y h no),
   mkWorld (w_env w) (w_topology w) (w_next w)
           (w_trace w ++ [EvRun (csi_block self)])%list).
Proof.
  unfold channel_state, channel_state_of, csi_block, pure_call, bind, log,
    ret.
  destruct (_perfect_csi self); cbn; [reflexivity|].
  now destruct (ls_estimate _ _ _).
Qed.

(** One forward pass, step by step: it never raises, returns the bits it
    drew and what the receiver chain makes of the channel output, and adds
    [call_events] to the trace. *)
Lemma call_run (self : MimoOfdmSystemModel) (batch_size : Z) (ebno_db : Q)
    (w : World) :
  let w1 := topology_step self batch_size w in
  let no := ebnodb2no ebno_db (_num_bits_per_symbol self) (_coderate self)
                      (_rg self) in
  let src := binary_source (_binary_source self)
               [batch_size; _num_tx self; _num_streams_per_tx self;
                _k self] (w_env w1) in
  let b := fst src in
  let ch := apply_channel (_ofdm_channel self)
              (w_topology w1
                 !! cm_ref (oc_channel_model (_ofdm_channel self)))
              (transmit self b) no (snd src) in
  let y := fst (fst ch) in
  let h := snd (fst ch) in
  call self batch_size ebno_db w =
  (Py.Ok (b, receive self y h no),
   mkWorld (snd ch) (w_topology w1) (w_next w)
           (w_trace w ++ call_events self batch_size)%list).
Proof.
  cbv zeta. unfold call. fold (draws_topology (_scenario self)).
  unfold bind at 1.
  assert (Hstep :
    (if draws_topology (_scenario self)
     then new_topology self batch_size else ret tt) w
    = (Py.Ok tt, topology_step self batch_size w)).
  { destruct (draws_topology (_scenario self)) eqn:Hd.
    - now apply new_topology_run.
    - unfold topology_step. now rewrite Hd. }
  rewrite Hstep. clear Hstep.
  unfold pure_call, random_call, call_ofdm_channel, bind, log, ret. cbn.
  rewrite topology_step_trace, topology_step_next.
  unfold transmit.
  destruct (binary_source _ _ _) as [b e1]. cbn.
  destruct (apply_channel _ _ _ _ _) as [[y h] e2]. cbn.
  rewrite channel_state_run. cbn.
  unfold receive.
  destruct (channel_state_of self y h _) as [h_hat err_var].
  destruct (lmmse_equalize _ _ _ _ _) as [x_hat no_eff]. cbn.
  unfold call_events, forward_blocks. cbn.
  repeat rewrite <- app_assoc. reflexivity.
Qed.

End ForwardPass.

(* ------------------------------------------------------------------ *)
(** ** The constructor *)

Lemma simulations_app (l1 l2 : list Event) :
  simulations (l1 ++ l2) = (simulations l1 ++ simulations l2)%list.
Proof. unfold simulations. apply flat_map_app. Qed.

Lemma not_supported_tests (scenario : string) :
  ~ In scenario supported_scenarios ->
  (scenario =? "umi") = false /\ (scenario =? "uma") = false
  /\ (scenario =? "rma") = false /\ is_cdl scenario = false.
Proof.
  intros Hn.
  assert (Hne : forall s, In s supported_scenarios -> (scenario =? s) = false).
  { intros s Hs. apply String.eqb_neq. intros ->. now apply Hn. }
  unfold is_cdl.
  rewrite !Hne by (simpl; tauto). now repeat split.
Qed.

Section Constructor.

Context {L : Sionna}.

Lemma configure_channel_model_ok scenario delay_spread carrier_frequency
    ut_array bs_array direction speed (w : World) :
  exists r w',
    configure_channel_model scenario delay_spread carrier_frequency
      ut_array bs_array direction speed w = (Py.Ok r, w').
Proof.
  unfold configure_channel_model.
  destruct (scenario =? "umi"); [eexists; eexists; reflexivity|].
  destruct (scenario =? "uma"); [eexists; eexists; reflexivity|].
  destruct (scenario =? "rma"); [eexists; eexists; reflexivity|].
  destruct (is_cdl scenario); eexists; eexists; reflexivity.
Qed.

(** What a successfully constructed model holds. *)
Lemma init_fields scenario perfect_csi direction speed carrier_frequency
    (w w' : World) (m : MimoOfdmSystemModel) :
  __init__ scenario perfect_csi direction speed carrier_frequency w
    = (Py.Ok m, w') ->
  (_scenario m = scenario /\ _perfect_csi m = perfect_csi
   /\ _direction m = direction /\ _speed m = speed
   /\ _carrier_frequency m = carrier_frequency)
  /\ (_num_ut m = 1 /\ _num_tx m = 1 /\ _num_streams_per_tx m = 4
      /\ _num_bits_per_symbol m = 2 /\ _coderate m = (1 # 2)%Q)
  /\ (_rg m = the_rg
      /\ _sm m = mkStreamManagement [[1]] 4
      /\ _n m = num_data_symbols (_rg m) * _num_bits_per_symbol m
      /\ _k m = Py.int (Py.mul (Py.float (_n m)) (_coderate m)))
  /\ (_encoder m = mkLDPC5GEncoder (_k m) (_n m)
      /\ _decoder m = mkLDPC5GDecoder (_encoder m)
      /\ _mapper m = mkMapper "qam" (_num_bits_per_symbol m)
      /\ _rg_mapper m = mkResourceGridMapper (_rg m)
      /\ _demapper m = mkDemapper "app" "qam" (_num_bits_per_symbol m))
  /\ (_ofdm_channel m = mkOFDMChannel (_channel_model m) (_rg m)
                          true true true
      /\ _remove_nulled_subcarriers m = mkRemoveNulledSubcarriers (_rg m)
      /\ _ls_est m = mkLSChannelEstimator (_rg m) "nn"
      /\ _lmmse_equ m = mkLMMSEEqualizer (_rg m) (_sm m)).
Proof.
  unfold __init__, new. cbn. unfold bind at 1.
  match goal with
  | |- context [configure_channel_model ?a ?b ?c ?d ?e ?f ?g ?h] =>
      destruct (configure_channel_model_ok a b c d e f g h)
        as (r & w1 & Hc); rewrite Hc
  end.
  destruct r as [cm|]; cbn; intros H; [|discriminate H].
  injection H as Hm _. subst m. cbn. repeat split; reflexivity.
Qed.

(** Construction succeeds for the eight scenarios and starts no
    simulation. *)
Lemma init_supported_run scenario perfect_csi direction speed
    carrier_frequency (w : World) :
  In scenario supported_scenarios ->
  exists m w' evs,
    __init__ scenario perfect_csi direction speed carrier_frequency w
      = (Py.Ok m, w')
    /\ w_trace w' = (w_trace w ++ evs)%list
    /\ simulations evs = [].
Proof.
  intros Hin.
  repeat (destruct Hin as [<- | Hin];
          [eexists; eexists; eexists; split; [cbn; reflexivity|];
           cbn; repeat rewrite <- app_assoc; split; reflexivity|]).
  destruct Hin.
Qed.

End Constructor.

(** C2: for each of the eight scenario strings the constructor succeeds and
    the model holds the TR 38.901 channel model of that name: UMi for "umi",
    UMa for "uma", RMa for "rma", and for "A" to "E" the CDL model of that
    profile with delay spread 300 ns and the given speed as minimum speed;
    the OFDM channel is built on that channel model. *)
Theorem init_configures_channel_model {L : Sionna}
    (scenario : string) (perfect_csi : bool) (direction : string)
    (speed carrier_frequency : Q) (w : World) :
  In scenario supported_scenarios ->
  exists m w',
    __init__ scenario perfect_csi direction speed carrier_frequency w
      = (Py.Ok m, w')
    /\ oc_channel_model (_ofdm_channel m) = _channel_model m
    /\ let ut := the_array 2 carrier_frequency in
       let bs := the_array 4 carrier_frequency in
       let cfg := cm_config (_channel_model m) in
       (scenario = "umi" ->
        cfg = UMi carrier_frequency "low" ut bs direction false false)
       /\ (scenario = "uma" ->
           cfg = UMa carrier_frequency "low" ut bs direction false false)
       /\ (scenario = "rma" ->
           cfg = RMa carrier_frequency ut bs direction false false)
       /\ (In scenario cdl_scenarios ->
           cfg = CDL scenario (3 # 10000000) carrier_frequency ut bs
                     direction speed).
Proof.
  intros Hin.
  repeat (destruct Hin as [<- | Hin];
          [eexists; eexists; split; [cbn; reflexivity|]; cbn;
           split; [reflexivity|];
           repeat split; intros H;
           solve [reflexivity | discriminate H
                 | simpl in H; intuition discriminate]|]).
  destruct Hin.
Qed.

Lemma init_configures_channel_model_witness :
  In "C" supported_scenarios
  /\ exists m w',
      @__init__ Toy.lib "C" false "uplink" (15 # 1) (3500000000 # 1)
                Toy.world0 = (Py.Ok m, w')
      /\ cm_config (_channel_model m)
         = CDL "C" (3 # 10000000) (3500000000 # 1)
               (the_array 2 (3500000000 # 1)) (the_array 4 (3500000000 # 1))
               "uplink" (15 # 1).
Proof.
  assert (Hin : In "C" supported_scenarios) by (simpl; tauto).
  split; [exact Hin|].
  destruct (@init_configures_channel_model Toy.lib "C" false "uplink"
              (15 # 1) (3500000000 # 1) Toy.world0 Hin)
    as (m & w' & Hrun & _ & _ & _ & _ & Hcdl).
  exists m, w'. split; [exact Hrun|].
  apply Hcdl. simpl. tauto.
Defined.

(** C8: for a scenario string outside the eight supported ones no branch
    assigns [_channel_model]; the constructor builds everything up to the
    resource-grid mapper, no channel model among it, and then raises
    [AttributeError] where the OFDM channel would be constructed; no model
    results. *)
Theorem init_unsupported_raises {L : Sionna}
    (scenario : string) (perfect_csi : bool) (direction : string)
    (speed carrier_frequency : Q) (w : World) :
  ~ In scenario supported_scenarios ->
  __init__ scenario perfect_csi direction speed carrier_frequency w
  = (Py.Raise (Py.AttributeError "_channel_model"),
     mkWorld (w_env w) (w_topology w) (w_next w)
       (w_trace w ++
        map EvNew ["ResourceGrid"; "StreamManagement"; "AntennaArray";
                   "AntennaArray"; "BinarySource"; "QAMSource";
                   "LDPC5GEncoder"; "LDPC5GDecoder"; "Mapper";
                   "ResourceGridMapper"])%list).
Proof.
  intros Hn.
  destruct (not_supported_tests scenario Hn) as (H1 & H2 & H3 & H4).
  unfold __init__, new, configure_channel_model.
  rewrite H1, H2, H3, H4. cbn.
  repeat rewrite <- app_assoc. reflexivity.
Qed.

Lemma init_unsupported_raises_witness :
  ~ In "cdl" supported_scenarios
  /\ fst (@__init__ Toy.lib "cdl" true "uplink" (0 # 1) (3500000000 # 1)
                    Toy.world0)
     = Py.Raise (Py.AttributeError "_channel_model").
Proof.
  assert (Hn : ~ In "cdl" supported_scenarios).
  { simpl. intros H. repeat (destruct H as [H | H]; [discriminate H|]).
    exact H. }
  split; [exact Hn|].
  rewrite (@init_unsupported_raises Toy.lib "cdl" true "uplink" (0 # 1)
             (3500000000 # 1) Toy.world0 Hn).
  reflexivity.
Defined.

Lemma int_of_half (x : Z) :
  Py.int (Py.mul (Py.float (x * 2)) (1 # 2)) = x.
Proof.
  unfold Py.int, Py.mul, Py.float. cbn.
  rewrite Z.mul_1_r. apply Z.quot_mul. lia.
Qed.

(** C6: a constructed model uses 2 bits per symbol and code rate 1/2; its
    LDPC encoder has [n = num_data_symbols * num_bits_per_symbol] coded bits
    and [k = n * coderate] information bits, and its decoder is built from
    that very encoder. *)
Theorem init_ldpc_code {L : Sionna}
    (scenario : string) (perfect_csi : bool) (direction : string)
    (speed carrier_frequency : Q) (w w' : World)
    (m : MimoOfdmSystemModel) :
  __init__ scenario perfect_csi direction speed carrier_frequency w
    = (Py.Ok m, w') ->
  _num_bits_per_symbol m = 2
  /\ _coderate m = (1 # 2)%Q
  /\ _n m = num_data_symbols (_rg m) * _num_bits_per_symbol m
  /\ (inject_Z (_k m) == inject_Z (_n m) * _coderate m)%Q
  /\ _encoder m = mkLDPC5GEncoder (_k m) (_n m)
  /\ _decoder m = mkLDPC5GDecoder (_encoder m)
  /\ dec_encoder (_decoder m) = _encoder m.
Proof.
  intros Hinit.
  destruct (init_fields _ _ _ _ _ _ _ _ Hinit)
    as (_ & (_ & _ & _ & Hbits & Hrate) & (_ & _ & Hn & Hk)
        & (Henc & Hdec & _) & _).
  repeat split; try assumption.
  - rewrite Hk, Hn, Hbits, Hrate, int_of_half.
    unfold Qeq. cbn. lia.
  - now rewrite Hdec.
Qed.

Lemma init_ldpc_code_witness :
  exists m w',
    @__init__ Toy.lib "umi" false "uplink" (0 # 1) (3500000000 # 1)
              Toy.world0 = (Py.Ok m, w')
    /\ _encoder m = mkLDPC5GEncoder (_k m) (_n m)
    /\ _decoder m = mkLDPC5GDecoder (_encoder m).
Proof.
  destruct (@__init__ Toy.lib "umi" false "uplink" (0 # 1) (3500000000 # 1)
              Toy.world0) as [[m | e] w'] eqn:Hrun;
    [|vm_compute in Hrun; discriminate Hrun].
  exists m, w'. split; [reflexivity|].
  destruct (init_ldpc_code _ _ _ _ _ _ _ _ Hrun)
    as (_ & _ & _ & _ & Henc & Hdec & _).
  split; assumption.
Defined.

(** C1: on a constructed model, for every batch size and Eb/N0 value, a
    forward pass succeeds and runs, after the noise power and the source
    bits [b]: LDPC encoding of [b], QAM mapping, resource-grid mapping, the
    OFDM channel (built with AWGN), the channel state (LS estimation or the
    true channel), LMMSE equalization, demapping and LDPC decoding, each fed
    with the output of the one before; it returns [b] with the decoded
    bits, and the blocks appear in the trace in this order. *)
Theorem call_applies_chain_in_order {L : Sionna}
    (scenario : string) (perfect_csi : bool) (direction : string)
    (speed carrier_frequency : Q) (w0 w1 : World)
    (self : MimoOfdmSystemModel) (batch_size : Z) (ebno_db : Q)
    (w : World) :
  __init__ scenario perfect_csi direction speed carrier_frequency w0
    = (Py.Ok self, w1) ->
  exists no b c x x_rg y h h_hat err_var x_hat no_eff llr b_hat w',
    call self batch_size ebno_db w = (Py.Ok (b, b_hat), w')
    /\ (exists e, b = fst (binary_source (_binary_source self)
                             [batch_size; _num_tx self;
                              _num_streams_per_tx self; _k self] e))
    /\ c = encode (_encoder self) b
    /\ x = map_bits (_mapper self) c
    /\ x_rg = map_rg (_rg_mapper self) x
    /\ (exists topo e,
          (y, h) = fst (apply_channel (_ofdm_channel self) topo x_rg no e))
    /\ oc_add_awgn (_ofdm_channel self) = true
    /\ (h_hat, err_var) = channel_state_of self y h no
    /\ (x_hat, no_eff)
       = lmmse_equalize (_lmmse_equ self) y h_hat err_var no
    /\ llr = demap (_demapper self) x_hat no_eff
    /\ b_hat = decode (_decoder self) llr
    /\ w_trace w'
       = (w_trace w ++ topology_events self batch_size ++
          map EvRun
            [BlkEbnodb2no; BlkBinarySource; BlkEncoder; BlkMapper;
             BlkResourceGridMapper; BlkOFDMChannel;
             if perfect_csi then BlkRemoveNulledSubcarriers
             else BlkLSChannelEstimator;
             BlkLMMSEEqualizer; BlkDemapper; BlkDecoder])%list.
Proof.
  intros Hinit.
  destruct (init_fields _ _ _ _ _ _ _ _ Hinit)
    as ((_ & Hpc & _) & _ & _ & _ & (Hoc & _)).
  pose proof (call_run self batch_size ebno_db w) as Hrun.
  cbv zeta in Hrun.
  set (w2 := topology_step self batch_size w) in Hrun.
  set (no := ebnodb2no _ _ _ _) in Hrun.
  set (src := binary_source _ _ _) in Hrun.
  set (ch := apply_channel _ _ _ _ _) in Hrun.
  destruct (channel_state_of self (fst (fst ch)) (snd (fst ch)) no)
    as [h_hat err_var] eqn:Hcsi.
  destruct (lmmse_equalize (_lmmse_equ self) (fst (fst ch)) h_hat err_var no)
    as [x_hat no_eff] eqn:Heq.
  exists no, (fst src), (encode (_encoder self) (fst src)),
    (map_bits (_mapper self) (encode (_encoder self) (fst src))),
    (transmit self (fst src)), (fst (fst ch)), (snd (fst ch)),
    h_hat, err_var, x_hat, no_eff, (demap (_demapper self) x_hat no_eff),
    (decode (_decoder self) (demap (_demapper self) x_hat no_eff)).
  eexists. split.
  { rewrite Hrun. unfold receive. rewrite Hcsi, Heq. reflexivity. }
  split; [exists (w_env w2); reflexivity|].
  do 3 (split; [reflexivity|]).
  split.
  { eexists. eexists. subst ch. now rewrite <- surjective_pairing. }
  split; [now rewrite Hoc|].
  split; [now rewrite Hcsi|].
  split; [now rewrite Heq|].
  do 2 (split; [reflexivity|]).
  cbn. unfold call_events, forward_blocks, csi_block. now rewrite Hpc.
Qed.

Lemma call_applies_chain_in_order_witness :
  exists self w1 b b_hat w',
    @__init__ Toy.lib "uma" true "uplink" (0 # 1) (3500000000 # 1)
              Toy.world0 = (Py.Ok self, w1)
    /\ call self 76 (3 # 1) w1 = (Py.Ok (b, b_hat), w')
    /\ exists llr, b_hat = decode (_decoder self) llr.
Proof.
  destruct (@__init__ Toy.lib "uma" true "uplink" (0 # 1) (3500000000 # 1)
              Toy.world0) as [[self | e] w1] eqn:Hinit;
    [|vm_compute in Hinit; discriminate Hinit].
  destruct (call_applies_chain_in_order _ _ _ _ _ _ _ self 76 (3 # 1) w1
              Hinit)
    as (no & b & c & x & x_rg & y & h & h_hat & err_var & x_hat & no_eff
        & llr & b_hat & w' & Hcall & _ & _ & _ & _ & _ & _ & _ & _ & _
        & Hb & _).
  exists self, w1, b, b_hat, w'.
  split; [reflexivity|]. split; [exact Hcall|].
  exists llr. exact Hb.
Defined.

(* ------------------------------------------------------------------ *)
(** ** Channel state, shapes and topology in a forward pass *)

Lemma runs_of_app (b : Block) (l1 l2 : list Event) :
  runs_of b (l1 ++ l2) = (runs_of b l1 + runs_of b l2)%nat.
Proof. unfold runs_of. now rewrite List.filter_app, List.length_app. Qed.

Lemma runs_of_topology_events (b : Block) (self : MimoOfdmSystemModel)
    (batch_size : Z) :
  runs_of b (topology_events self batch_size) = 0%nat.
Proof.
  unfold topology_events. now destruct (draws_topology (_scenario self)).
Qed.

Lemma stochastic_draws (scenario : string) :
  In scenario stochastic_scenarios -> draws_topology scenario = true.
Proof.
  intros Hin.
  repeat (destruct Hin as [<- | Hin]; [reflexivity|]). destruct Hin.
Qed.

Lemma cdl_does_not_draw (scenario : string) :
  In scenario cdl_scenarios -> draws_topology scenario = false.
Proof.
  intros Hin.
  repeat (destruct Hin as [<- | Hin]; [reflexivity|]). destruct Hin.
Qed.

Lemma init_cdl_config {L : Sionna}
    (scenario : string) (perfect_csi : bool) (direction : string)
    (speed carrier_frequency : Q) (w w' : World)
    (m : MimoOfdmSystemModel) :
  In scenario cdl_scenarios ->
  __init__ scenario perfect_csi direction speed carrier_frequency w
    = (Py.Ok m, w') ->
  cm_config (_channel_model m)
  = CDL scenario (3 # 10000000) carrier_frequency
        (the_array 2 carrier_frequency) (the_array 4 carrier_frequency)
        direction speed.
Proof.
  intros Hin.
  repeat (destruct Hin as [<- | Hin];
          [cbn; intros H; injection H as <- _; reflexivity|]).
  destruct Hin.
Qed.

(** C4: on a model constructed with flag [perfect_csi], every forward pass
    takes the channel state one way only.  If the flag is true, the
    equalizer gets the true channel [h] returned by the OFDM channel with
    the nulled subcarriers removed, and the error variance [0.0]; the LS
    estimator does not run.  Otherwise it gets the LS estimate computed
    from the received signal [y] and the noise power [no], with the
    estimator's error variance; the true channel is not used. *)
Theorem call_channel_state {L : Sionna}
    (scenario : string) (perfect_csi : bool) (direction : string)
    (speed carrier_frequency : Q) (w0 w1 : World)
    (self : MimoOfdmSystemModel) (batch_size : Z) (ebno_db : Q)
    (w : World) :
  __init__ scenario perfect_csi direction speed carrier_frequency w0
    = (Py.Ok self, w1) ->
  exists b no y h h_hat err_var evs w',
    let eqz := lmmse_equalize (_lmmse_equ self) y h_hat err_var no in
    call self batch_size ebno_db w
    = (Py.Ok (b, decode (_decoder self)
                   (demap (_demapper self) (fst eqz) (snd eqz))), w')
    /\ no = ebnodb2no ebno_db (_num_bits_per_symbol self) (_coderate self)
                      (_rg self)
    /\ (exists topo x_rg e,
          (y, h) = fst (apply_channel (_ofdm_channel self) topo x_rg no e))
    /\ w_trace w' = (w_trace w ++ evs)%list
    /\ _ls_est self = mkLSChannelEstimator (_rg self) "nn"
    /\ _remove_nulled_subcarriers self = mkRemoveNulledSubcarriers (_rg self)
    /\ if perfect_csi then
         h_hat = remove_nulled (_remove_nulled_subcarriers self) h
         /\ err_var = ErrFloat 0%Q
         /\ runs_of BlkRemoveNulledSubcarriers evs = 1%nat
         /\ runs_of BlkLSChannelEstimator evs = 0%nat
       else
         h_hat = fst (ls_estimate (_ls_est self) y no)
         /\ err_var = ErrTensor (snd (ls_estimate (_ls_est self) y no))
         /\ runs_of BlkLSChannelEstimator evs = 1%nat
         /\ runs_of BlkRemoveNulledSubcarriers evs = 0%nat.
Proof.
  intros Hinit.
  destruct (init_fields _ _ _ _ _ _ _ _ Hinit)
    as ((_ & Hpc & _) & _ & _ & _ & (_ & Hrns & Hls & _)).
  pose proof (call_run self batch_size ebno_db w) as Hrun.
  cbv zeta in Hrun.
  set (w2 := topology_step self batch_size w) in Hrun.
  set (no := ebnodb2no _ _ _ _) in Hrun.
  set (src := binary_source _ _ _) in Hrun.
  set (ch := apply_channel _ _ _ _ _) in Hrun.
  exists (fst src), no, (fst (fst ch)), (snd (fst ch)),
    (fst (channel_state_of self (fst (fst ch)) (snd (fst ch)) no)),
    (snd (channel_state_of self (fst (fst ch)) (snd (fst ch)) no)),
    (call_events self batch_size).
  eexists. cbv zeta. split.
  { rewrite Hrun. unfold receive.
    destruct (channel_state_of _ _ _ _) as [h_hat err_var]. cbn.
    now destruct (lmmse_equalize _ _ _ _ _). }
  split; [reflexivity|].
  split.
  { eexists. eexists. eexists. subst ch. now rewrite <- surjective_pairing. }
  split; [reflexivity|].
  split; [exact Hls|]. split; [exact Hrns|].
  unfold call_events, forward_blocks.
  rewrite !runs_of_app, !runs_of_topology_events.
  unfold channel_state_of, csi_block. rewrite Hpc.
  destruct perfect_csi; cbn; repeat split; reflexivity.
Qed.

Lemma call_channel_state_witness :
  exists self w1 evs (w' : @World Toy.lib),
    @__init__ Toy.lib "umi" false "uplink" (0 # 1) (3500000000 # 1)
              Toy.world0 = (Py.Ok self, w1)
    /\ w_trace w' = (w_trace w1 ++ evs)%list
    /\ runs_of BlkLSChannelEstimator evs = 1%nat
    /\ runs_of BlkRemoveNulledSubcarriers evs = 0%nat.
Proof.
  destruct (@__init__ Toy.lib "umi" false "uplink" (0 # 1) (3500000000 # 1)
              Toy.world0) as [[self | e] w1] eqn:Hinit;
    [|vm_compute in Hinit; discriminate Hinit].
  destruct (call_channel_state _ _ _ _ _ _ _ self 76 (3 # 1) w1 Hinit)
    as (b & no & y & h & h_hat & err_var & evs & w' & _ & _ & _ & Htr & _
        & _ & _ & _ & Hls & Hrns).
  exists self, w1, evs, w'.
  split; [reflexivity|]. repeat split; assumption.
Defined.

Lemma toy_set_last (pre : list Z) (a d : Z) :
  Toy.set_last (pre ++ [a]) d = (pre ++ [d])%list.
Proof. unfold Toy.set_last. now rewrite removelast_last. Qed.

#[export] Instance toy_shapes : ShapeContract Toy.lib.
Proof.
  constructor; cbn.
  - reflexivity.
  - intros enc t pre ->. apply toy_set_last.
  - intros m t pre len Hpos ->.
    rewrite toy_set_last, last_last, Z.div_mul by lia. reflexivity.
  - intros rgm t b ->. reflexivity.
  - intros oc topo x no e b rest ->. eexists. reflexivity.
  - intros eq y h_hat err_var no b rest ->. reflexivity.
  - intros dm x no_eff pre len ->.
    now rewrite toy_set_last, last_last.
  - intros dec llr pre ->. apply toy_set_last.
Qed.

(** C9: on a constructed model, with a library whose blocks have the
    documented shapes, every forward pass returns [(b, b_hat)] where [b] is
    the tensor freshly drawn from the binary source, of shape
    [[batch_size, num_tx, num_streams_per_tx, k]], which is
    [[batch_size, 1, 4, k]], and [b_hat] is the output of the LDPC decoder
    on the LLRs demapped from the equalized channel output of the
    transmitted [b]; [b_hat] has the same shape as [b]. *)
Theorem call_returns_same_shapes {L : Sionna} {SC : ShapeContract L}
    (scenario : string) (perfect_csi : bool) (direction : string)
    (speed carrier_frequency : Q) (w0 w1 : World)
    (self : MimoOfdmSystemModel) (batch_size : Z) (ebno_db : Q)
    (w : World) :
  __init__ scenario perfect_csi direction speed carrier_frequency w0
    = (Py.Ok self, w1) ->
  let w2 := topology_step self batch_size w in
  let no := ebnodb2no ebno_db (_num_bits_per_symbol self) (_coderate self)
                      (_rg self) in
  let src := binary_source (_binary_source self)
               [batch_size; _num_tx self; _num_streams_per_tx self;
                _k self] (w_env w2) in
  let ch := apply_channel (_ofdm_channel self)
              (w_topology w2
                 !! cm_ref (oc_channel_model (_ofdm_channel self)))
              (map_rg (_rg_mapper self)
                 (map_bits (_mapper self)
                    (encode (_encoder self) (fst src))))
              no (snd src) in
  exists b b_hat w',
    call self batch_size ebno_db w = (Py.Ok (b, b_hat), w')
    /\ b = fst src
    /\ (exists h_hat err_var x_hat no_eff llr,
          (h_hat, err_var)
          = channel_state_of self (fst (fst ch)) (snd (fst ch)) no
          /\ (x_hat, no_eff)
             = lmmse_equalize (_lmmse_equ self) (fst (fst ch)) h_hat
                              err_var no
          /\ llr = demap (_demapper self) x_hat no_eff
          /\ shape llr = [batch_size; 1; 4; _n self]
          /\ b_hat = decode (_decoder self) llr)
    /\ shape b = [batch_size; _num_tx self; _num_streams_per_tx self;
                  _k self]
    /\ shape b = [batch_size; 1; 4; _k self]
    /\ shape b_hat = shape b.
Proof.
  intros Hinit. cbv zeta.
  destruct (init_fields _ _ _ _ _ _ _ _ Hinit)
    as (_ & (_ & Htx & Hst & Hbits & Hrate) & (Hrg & Hsm & Hn & Hk)
        & (Henc & Hdec & Hmap & Hrgm & Hdem) & (_ & _ & _ & Hequ)).
  assert (Hk' : _k self = num_data_symbols (_rg self)).
  { rewrite Hk, Hn, Hbits, Hrate. apply int_of_half. }
  pose proof (call_run self batch_size ebno_db w) as Hrun.
  cbv zeta in Hrun. unfold transmit in Hrun.
  set (w2 := topology_step self batch_size w) in *.
  set (no := ebnodb2no _ _ _ _) in *.
  set (src := binary_source _ _ _) in *.
  set (ch := apply_channel _ _ _ _ _) in *.
  set (b := fst src) in *.
  assert (Hb : shape b = [batch_size; 1; 4; _k self]).
  { subst b src. rewrite binary_source_shape. now rewrite Htx, Hst. }
  (* transmitter *)
  assert (Hc : shape (encode (_encoder self) b)
               = ([batch_size; 1; 4] ++ [_n self])%list).
  { rewrite Henc at 1.
    apply (encode_shape (mkLDPC5GEncoder (_k self) (_n self)) b
                        [batch_size; 1; 4]).
    exact Hb. }
  assert (Hx : shape (map_bits (_mapper self) (encode (_encoder self) b))
               = [batch_size; 1; 4; num_data_symbols (_rg self)]).
  { rewrite Hmap, Hbits.
    apply (map_bits_shape (mkMapper "qam" 2) _ [batch_size; 1; 4]);
      [cbn; lia|].
    rewrite Hc, Hn, Hbits. reflexivity. }
  assert (Hxrg : exists rest,
             shape (map_rg (_rg_mapper self)
                      (map_bits (_mapper self) (encode (_encoder self) b)))
             = batch_size :: rest).
  { rewrite Hrgm. eexists.
    apply (map_rg_shape (mkResourceGridMapper (_rg self))). cbn.
    rewrite Hx, Hrg. reflexivity. }
  destruct Hxrg as (rest & Hxrg).
  (* channel and receiver *)
  destruct (apply_channel_shape (_ofdm_channel self)
              (w_topology w2
                 !! cm_ref (oc_channel_model (_ofdm_channel self)))
              _ no (snd src) batch_size rest Hxrg)
    as (rest' & Hy).
  fold ch in Hy.
  destruct (channel_state_of self (fst (fst ch)) (snd (fst ch)) no)
    as [h_hat err_var] eqn:Hcsi.
  pose proof (lmmse_equalize_shape (_lmmse_equ self) (fst (fst ch)) h_hat
                err_var no batch_size rest' Hy) as Hxhat.
  cbv zeta in Hxhat.
  destruct (lmmse_equalize (_lmmse_equ self) (fst (fst ch)) h_hat err_var no)
    as [x_hat no_eff] eqn:Heq.
  cbn in Hxhat.
  rewrite Hequ in Hxhat. cbn in Hxhat. rewrite Hrg in Hxhat. cbn in Hxhat.
  assert (Hllr : shape (demap (_demapper self) x_hat no_eff)
                 = [batch_size; 1; 4; _n self]).
  { rewrite Hn, Hbits, Hdem, Hbits, Hrg.
    apply (demap_shape (mkDemapper "app" "qam" 2) x_hat no_eff
             [batch_size; 1; 4]).
    exact Hxhat. }
  exists b, (decode (_decoder self) (demap (_demapper self) x_hat no_eff)).
  eexists. split.
  { rewrite Hrun. unfold receive. rewrite Hcsi, Heq. reflexivity. }
  split; [reflexivity|].
  split.
  { exists h_hat, err_var, x_hat, no_eff,
      (demap (_demapper self) x_hat no_eff).
    split; [first [reflexivity | now rewrite Hcsi]|].
    split; [first [reflexivity | now rewrite Heq]|].
    split; [reflexivity|]. split; [exact Hllr | reflexivity]. }
  split; [now rewrite Htx, Hst|]. split; [exact Hb|].
  rewrite Hb, Hdec, Henc.
  apply (decode_shape (mkLDPC5GDecoder (mkLDPC5GEncoder (_k self) (_n self)))
           _ [batch_size; 1; 4]).
  exact Hllr.
Qed.

Lemma call_returns_same_shapes_witness :
  exists self w1 b b_hat llr (w' : @World Toy.lib),
    @__init__ Toy.lib "umi" false "uplink" (0 # 1) (3500000000 # 1)
              Toy.world0 = (Py.Ok self, w1)
    /\ call self 76 (3 # 1) w1 = (Py.Ok (b, b_hat), w')
    /\ b_hat = decode (_decoder self) llr
    /\ shape b = [76; 1; 4; _k self]
    /\ shape b_hat = shape b.
Proof.
  destruct (@__init__ Toy.lib "umi" false "uplink" (0 # 1) (3500000000 # 1)
              Toy.world0) as [[self | e] w1] eqn:Hinit;
    [|vm_compute in Hinit; discriminate Hinit].
  pose proof (@call_returns_same_shapes Toy.lib toy_shapes _ _ _ _ _ _ _
                self 76 (3 # 1) w1 Hinit) as Hpass.
  cbv zeta in Hpass.
  destruct Hpass
    as (b & b_hat & w' & Hcall & _
        & (h_hat & err_var & x_hat & no_eff & llr & _ & _ & _ & _ & Hdec)
        & _ & Hb & Hbhat).
  exists self, w1, b, b_hat, llr, w'.
  split; [reflexivity|]. repeat split; assumption.
Defined.

(** C10: on a constructed model, a forward pass draws a new topology and
    installs it in the model's channel model exactly when the scenario is
    "umi", "uma" or "rma", and does so first.  For the CDL scenarios "A" to
    "E" the pass neither draws nor installs a topology and leaves the
    installed ones as they are; the speed is the [min_speed] the CDL model
    was built with, and the pass does not read the model's speed. *)
Theorem call_topology_by_scenario {L : Sionna}
    (scenario : string) (perfect_csi : bool) (direction : string)
    (speed carrier_frequency : Q) (w0 w1 : World)
    (self : MimoOfdmSystemModel) (batch_size : Z) (ebno_db : Q)
    (w : World) :
  __init__ scenario perfect_csi direction speed carrier_frequency w0
    = (Py.Ok self, w1) ->
  exists r w' evs,
    call self batch_size ebno_db w = (Py.Ok r, w')
    /\ w_trace w' = (w_trace w ++ evs)%list
    /\ (In scenario stochastic_scenarios ->
        exists rest,
          evs = EvGenTopology batch_size 1 scenario speed speed
                :: EvSetTopology (cm_ref (_channel_model self)) :: rest
          /\ forallb (fun e => negb (touches_topology e)) rest = true
          /\ w_topology w'
             = <[cm_ref (_channel_model self) :=
                   fst (gen_topology batch_size 1 scenario speed speed
                                     (w_env w))]> (w_topology w))
    /\ (In scenario cdl_scenarios ->
        forallb (fun e => negb (touches_topology e)) evs = true
        /\ w_topology w' = w_topology w
        /\ (exists ut bs delay_spread,
              cm_config (_channel_model self)
              = CDL scenario delay_spread carrier_frequency ut bs
                    direction speed)
        /\ forall speed',
             call (with_speed self speed') batch_size ebno_db w
             = call self batch_size ebno_db w).
Proof.
  intros Hinit.
  destruct (init_fields _ _ _ _ _ _ _ _ Hinit)
    as ((Hsc & _ & _ & Hsp & _) & (Hut & _) & _).
  pose proof (call_run self batch_size ebno_db w) as Hrun.
  cbv zeta in Hrun.
  eexists. eexists. exists (call_events self batch_size).
  split; [exact Hrun|]. split; [reflexivity|]. cbn.
  unfold call_events, topology_events, topology_step.
  rewrite Hsc, Hsp, Hut. split.
  - intros Hin. rewrite (stochastic_draws _ Hin).
    eexists. split; [reflexivity|].
    split; [unfold forward_blocks, csi_block;
            now destruct (_perfect_csi self)|].
    now destruct (gen_topology _ _ _ _ _ _).
  - intros Hin. pose proof (cdl_does_not_draw _ Hin) as Hd. rewrite Hd.
    split; [unfold forward_blocks, csi_block;
            now destruct (_perfect_csi self)|].
    split; [reflexivity|].
    split.
    { eexists. eexists. eexists.
      exact (init_cdl_config _ _ _ _ _ _ _ _ Hin Hinit). }
    intros speed'.
    unfold call, new_topology, channel_state, with_speed. cbn.
    fold (draws_topology (_scenario self)). rewrite Hsc, Hd. reflexivity.
Qed.

Lemma call_topology_by_scenario_witness :
  exists self w1 r (w' : @World Toy.lib),
    @__init__ Toy.lib "B" false "uplink" (30 # 1) (3500000000 # 1)
              Toy.world0 = (Py.Ok self, w1)
    /\ call self 76 (3 # 1) w1 = (Py.Ok r, w')
    /\ w_topology w' = w_topology w1.
Proof.
  destruct (@__init__ Toy.lib "B" false "uplink" (30 # 1) (3500000000 # 1)
              Toy.world0) as [[self | e] w1] eqn:Hinit;
    [|vm_compute in Hinit; discriminate Hinit].
  destruct (call_topology_by_scenario _ _ _ _ _ _ _ self 76 (3 # 1) w1 Hinit)
    as (r & w' & evs & Hcall & _ & _ & Hcdl).
  exists self, w1, r, w'.
  split; [reflexivity|]. split; [exact Hcall|].
  apply Hcdl. simpl. tauto.
Defined.

(* ------------------------------------------------------------------ *)
(** ** The Monte-Carlo loop *)

Lemma total_app (f : BatchStats -> Z) (l1 l2 : list BatchStats) :
  total f (l1 ++ l2) = total f l1 + total f l2.
Proof.
  unfold total. induction l1 as [|s l1 IH]; cbn; [reflexivity|].
  rewrite IH. lia.
Qed.

Lemma call_events_simulations (self : MimoOfdmSystemModel) (batch_size : Z) :
  simulations (call_events self batch_size) = [].
Proof.
  unfold call_events, topology_events.
  now destruct (draws_topology (_scenario self)).
Qed.

Lemma call_events_source (self : MimoOfdmSystemModel) (batch_size : Z) :
  runs_of BlkBinarySource (call_events self batch_size) = 1%nat.
Proof.
  unfold call_events. rewrite runs_of_app, runs_of_topology_events.
  unfold forward_blocks, csi_block. now destruct (_perfect_csi self).
Qed.

Section MonteCarlo.

Context {L : Sionna}.

Variable mc_fun : MimoOfdmSystemModel.
Variables batch_size num_target_block_errors : Z.

(** The loop for one point never raises; it extends [done] by at most
    [fuel] batches, goes on only while the block errors are below the
    target, and stops short of [fuel] only on reaching it. *)
Lemma mc_loop_run (ebno_db : Q) (fuel : nat) :
  forall (done : list BatchStats) (w : World),
  exists h w' new,
    mc_loop mc_fun ebno_db batch_size num_target_block_errors fuel done w
      = (Py.Ok h, w')
    /\ h = (done ++ new)%list
    /\ (List.length new <= fuel)%nat
    /\ (forall j, (List.length done < j < List.length h)%nat ->
         total bs_block_errors (firstn j h) < num_target_block_errors)
    /\ ((List.length new < fuel)%nat ->
        num_target_block_errors <= total bs_block_errors h)
    /\ simulations (w_trace w') = simulations (w_trace w)
    /\ runs_of BlkBinarySource (w_trace w')
       = (runs_of BlkBinarySource (w_trace w) + List.length new)%nat.
Proof.
  induction fuel as [|fuel' IH]; intros done w.
  - exists done, w, []. cbn. rewrite app_nil_r.
    repeat split; try reflexivity; try lia.
  - cbn [mc_loop]. unfold bind at 1. rewrite call_run. cbv zeta.
    match goal with
    | |- context [batch_stats ?b ?bh] => set (s := batch_stats b bh)
    end.
    match goal with
    | |- context [mkWorld ?e ?t ?n ?tr] => set (w1 := mkWorld e t n tr)
    end.
    assert (Hsim1 : simulations (w_trace w1) = simulations (w_trace w)).
    { subst w1. cbn [w_trace]. rewrite simulations_app, call_events_simulations.
      apply app_nil_r. }
    assert (Hrun1 : runs_of BlkBinarySource (w_trace w1)
                    = (runs_of BlkBinarySource (w_trace w) + 1)%nat).
    { subst w1. cbn [w_trace]. now rewrite runs_of_app, call_events_source. }
    destruct (Z.leb num_target_block_errors
                (total bs_block_errors (done ++ [s]))) eqn:Hstop.
    + exists (done ++ [s])%list, w1, [s].
      split; [reflexivity|]. split; [reflexivity|].
      split; [cbn; lia|].
      split; [intros j; rewrite List.length_app; cbn; lia|].
      split; [intros _; now apply Z.leb_le|].
      split; assumption.
    + destruct (IH (done ++ [s])%list w1)
        as (h & w' & new & Hrun & Hh & Hlen & Hpre & Hfin & Hsim & Hruns).
      exists h, w', (s :: new).
      split; [exact Hrun|].
      split; [now rewrite Hh, <- app_assoc|].
      split; [cbn; lia|].
      split.
      { intros j Hj.
        destruct (Nat.eq_dec j (List.length (done ++ [s]))) as [-> | Hne].
        - rewrite Hh, firstn_app, Nat.sub_diag, firstn_all. cbn.
          rewrite app_nil_r. now apply Z.leb_gt.
        - apply Hpre. rewrite List.length_app in *. cbn in *. lia. }
      split; [intros Hlt; apply Hfin; cbn in Hlt; lia|].
      split; [congruence|].
      rewrite Hruns, Hrun1. cbn. lia.
Qed.

End MonteCarlo.

Section Sweep.

Context {L : Sionna}.

Variable mc_fun : MimoOfdmSystemModel.
Variables batch_size max_mc_iter num_target_block_errors : Z.
Hypothesis max_mc_iter_nonneg : 0 <= max_mc_iter.

Lemma mc_loop_early_stopped (ebno_db : Q) (w : World) :
  exists h w',
    mc_loop mc_fun ebno_db batch_size num_target_block_errors
            (Z.to_nat max_mc_iter) [] w = (Py.Ok h, w')
    /\ early_stopped max_mc_iter num_target_block_errors h
    /\ simulations (w_trace w') = simulations (w_trace w)
    /\ runs_of BlkBinarySource (w_trace w')
       = (runs_of BlkBinarySource (w_trace w) + List.length h)%nat.
Proof.
  destruct (mc_loop_run mc_fun batch_size num_target_block_errors ebno_db
              (Z.to_nat max_mc_iter) [] w)
    as (h & w' & new & Hrun & Hh & Hlen & Hpre & Hfin & Hsim & Hruns).
  cbn in Hh. subst new.
  exists h, w'. split; [exact Hrun|]. split; [|split; assumption].
  unfold early_stopped. split; [lia|]. split.
  - intros j Hj. apply Hpre. cbn. lia.
  - intros Hlt. apply Hfin. lia.
Qed.

Lemma sim_points_run (ebno_dbs : list Q) :
  forall w : World,
  exists hs w',
    sim_points mc_fun ebno_dbs batch_size max_mc_iter
               num_target_block_errors w = (Py.Ok hs, w')
    /\ List.length hs = List.length ebno_dbs
    /\ Forall (early_stopped max_mc_iter num_target_block_errors) hs
    /\ simulations (w_trace w') = simulations (w_trace w)
    /\ runs_of BlkBinarySource (w_trace w')
       = (runs_of BlkBinarySource (w_trace w) + batches hs)%nat.
Proof.
  induction ebno_dbs as [|ebno_db rest IH]; intros w.
  - exists [], w.
    split; [reflexivity|]. split; [reflexivity|].
    split; [constructor|]. split; [reflexivity|].
    cbn [batches fold_right]. now rewrite Nat.add_0_r.
  - destruct (mc_loop_early_stopped ebno_db w)
      as (h & w1 & Hrun1 & Hstop & Hsim1 & Hruns1).
    destruct (IH w1) as (hs & w' & Hrun & Hlen & Hall & Hsim & Hruns).
    exists (h :: hs), w'.
    split.
    { cbn [sim_points]. unfold bind at 1. rewrite Hrun1.
      unfold bind at 1. rewrite Hrun. reflexivity. }
    split; [cbn; now rewrite Hlen|].
    split; [now constructor|].
    split; [congruence|].
    rewrite Hruns, Hruns1.
    change (batches (h :: hs)) with (List.length h + batches hs)%nat. lia.
Qed.

Lemma sim_ber_run (ebno_dbs : list Q) (w : World) :
  exists hs w',
    sim_ber mc_fun ebno_dbs batch_size max_mc_iter num_target_block_errors w
      = (Py.Ok (map ber_of hs, map bler_of hs), w')
    /\ List.length hs = List.length ebno_dbs
    /\ Forall (early_stopped max_mc_iter num_target_block_errors) hs
    /\ simulations (w_trace w')
       = (simulations (w_trace w)
          ++ [(_scenario mc_fun, _perfect_csi mc_fun, _direction mc_fun,
               _speed mc_fun, _carrier_frequency mc_fun)])%list
    /\ runs_of BlkBinarySource (w_trace w')
       = (runs_of BlkBinarySource (w_trace w) + batches hs)%nat.
Proof.
  unfold sim_ber, bind at 1, log.
  match goal with
  | |- context [mkWorld ?e ?t ?n ?tr] => set (w1 := mkWorld e t n tr)
  end.
  destruct (sim_points_run ebno_dbs w1)
    as (hs & w' & Hrun & Hlen & Hall & Hsim & Hruns).
  exists hs, w'. unfold bind at 1. rewrite Hrun.
  split; [reflexivity|]. split; [exact Hlen|]. split; [exact Hall|].
  split.
  - rewrite Hsim. subst w1. cbn [w_trace]. now rewrite simulations_app.
  - rewrite Hruns. subst w1. cbn [w_trace]. rewrite runs_of_app.
    change (runs_of BlkBinarySource [EvSimBer mc_fun batch_size max_mc_iter
              num_target_block_errors]) with 0%nat. lia.
Qed.

End Sweep.

(** C5: with the settings of the study (batch size 76, at most 100
    iterations, target of 1000 block errors), [sim_ber] simulates for every
    Eb/N0 point of the sweep at most 100 batches; it goes on to a further
    batch only while the block errors added up so far are below 1000, and
    it stops before the 100th batch only when they have reached 1000.  The
    forward passes it runs are exactly these batches. *)
Theorem sim_ber_stops_early {L : Sionna}
    (mc_fun : MimoOfdmSystemModel) (ebno_dbs : list Q) (w : World) :
  exists hs w',
    sim_ber mc_fun ebno_dbs 76 100 1000 w
      = (Py.Ok (map ber_of hs, map bler_of hs), w')
    /\ List.length hs = List.length ebno_dbs
    /\ Forall (fun h => (List.length h <= 100)%nat) hs
    /\ Forall (fun h => forall j, (1 <= j < List.length h)%nat ->
                 total bs_block_errors (firstn j h) < 1000) hs
    /\ Forall (fun h => (List.length h < 100)%nat ->
                 1000 <= total bs_block_errors h) hs
    /\ runs_of BlkBinarySource (w_trace w')
       = (runs_of BlkBinarySource (w_trace w) + batches hs)%nat.
Proof.
  destruct (sim_ber_run mc_fun 76 100 1000 ltac:(lia) ebno_dbs w)
    as (hs & w' & Hrun & Hlen & Hall & _ & Hruns).
  exists hs, w'. split; [exact Hrun|]. split; [exact Hlen|].
  repeat split; try exact Hruns;
    (eapply List.Forall_impl; [|exact Hall]);
    intros h (Hmax & Hpre & Hfin); cbn beta.
  - lia.
  - exact Hpre.
  - intros Hlt. apply Hfin. lia.
Qed.

(* ------------------------------------------------------------------ *)
(** ** The study loop *)

Section StudyLoop.

Context {L : Sionna}.

Variables speed c_freq : Q.
Variable perfect_csi : bool.
Variable direction : string.

(** The loop over the scenarios: one model and one [sim_ber] per scenario,
    always with the same speed, carrier frequency, CSI flag and direction;
    one BER and one BLER curve appended per scenario. *)
Lemma scenario_loop_run (scenarios : list string) :
  Forall (fun s => In s supported_scenarios) scenarios ->
  forall (sims : Study) (w : World),
  nth_error (st_perfect_csi sims) 1 = Some perfect_csi ->
  nth_error (st_direction sims) 0 = Some direction ->
  exists sims' w' bers blers,
    scenario_loop sims speed c_freq scenarios w = (Py.Ok sims', w')
    /\ sims' = mkStudy (st_ebno_db sims) (st_scenario sims)
                 (st_perfect_csi sims) (st_direction sims)
                 (st_carrier_frequency sims) (st_speed sims)
                 (st_ber sims ++ bers)%list (st_bler sims ++ blers)%list
                 (st_duration sims)
    /\ List.length bers = List.length scenarios
    /\ List.length blers = List.length scenarios
    /\ Forall (fun c => List.length c = List.length (st_ebno_db sims)) bers
    /\ Forall (fun c => List.length c = List.length (st_ebno_db sims)) blers
    /\ simulations (w_trace w')
       = (simulations (w_trace w)
          ++ map (fun sc => (sc, perfect_csi, direction, speed, c_freq))
                 scenarios)%list.
Proof.
  induction 1 as [|scenario rest Hsup _ IH]; intros sims w Hpc Hdir.
  - exists sims, w, [], []. cbn. rewrite !app_nil_r.
    destruct sims. repeat split; constructor.
  - cbn [scenario_loop]. unfold getitem. rewrite Hpc, Hdir.
    unfold bind at 1. cbn [ret]. unfold bind at 1. cbn [ret].
    destruct (init_supported_run scenario perfect_csi direction speed
                c_freq w Hsup) as (m & w1 & evs & Hinit & Htr & Hevs).
    unfold bind at 1. rewrite Hinit.
    destruct (init_fields _ _ _ _ _ _ _ _ Hinit)
      as ((Hsc & Hcsi & Hd & Hsp & Hcf) & _).
    destruct (sim_ber_run m 76 100 1000 ltac:(lia) (st_ebno_db sims) w1)
      as (hs & w2 & Hrun & Hlen & _ & Hsim & _).
    unfold bind at 1. rewrite Hrun.
    match goal with
    | |- context [scenario_loop ?s _ _ _ _] => set (sims1 := s)
    end.
    destruct (IH sims1 w2 Hpc Hdir)
      as (sims' & w' & bers & blers & Hloop & Hs' & Hb & Hbl & Hfb & Hfbl
          & Hsims).
    exists sims', w', (map ber_of hs :: bers), (map bler_of hs :: blers).
    split; [exact Hloop|].
    split.
    { rewrite Hs'. subst sims1. cbn. now rewrite <- !app_assoc. }
    split; [cbn; now rewrite Hb|]. split; [cbn; now rewrite Hbl|].
    split; [constructor; [now rewrite List.length_map|exact Hfb]|].
    split; [constructor; [now rewrite List.length_map|exact Hfbl]|].
    rewrite Hsims, Hsim, Htr, simulations_app, Hevs, app_nil_r.
    rewrite Hsc, Hcsi, Hd, Hsp, Hcf. cbn. now rewrite <- app_assoc.
Qed.

End StudyLoop.

Lemma call_time_run {L : Sionna} (w : World) :
  call_time w
  = (Py.Ok (fst (time_time (w_env w))),
     mkWorld (snd (time_time (w_env w))) (w_topology w) (w_next w)
             (w_trace w ++ [EvTime])%list).
Proof.
  unfold call_time, bind, log. cbn. now destruct (time_time (w_env w)).
Qed.

(** The whole study: it fixes the first speed and the first carrier
    frequency, runs the loop and stores the duration. *)
Lemma run_study_run {L : Sionna} (sims : Study) (w : World)
    (speed c_freq : Q) (perfect_csi : bool) (direction : string) :
  nth_error (st_speed sims) 0 = Some speed ->
  nth_error (st_carrier_frequency sims) 0 = Some c_freq ->
  nth_error (st_perfect_csi sims) 1 = Some perfect_csi ->
  nth_error (st_direction sims) 0 = Some direction ->
  Forall (fun s => In s supported_scenarios) (st_scenario sims) ->
  exists sims' w' bers blers,
    run_study sims w = (Py.Ok sims', w')
    /\ st_ebno_db sims' = st_ebno_db sims
    /\ st_ber sims' = (st_ber sims ++ bers)%list
    /\ st_bler sims' = (st_bler sims ++ blers)%list
    /\ List.length bers = List.length (st_scenario sims)
    /\ List.length blers = List.length (st_scenario sims)
    /\ Forall (fun c => List.length c = List.length (st_ebno_db sims)) bers
    /\ Forall (fun c => List.length c = List.length (st_ebno_db sims)) blers
    /\ simulations (w_trace w')
       = (simulations (w_trace w)
          ++ map (fun sc => (sc, perfect_csi, direction, speed, c_freq))
                 (st_scenario sims))%list.
Proof.
  intros Hsp Hcf Hpc Hdir Hsup.
  unfold run_study, getitem. rewrite Hsp, Hcf.
  unfold bind at 1. cbn [ret]. unfold bind at 1. cbn [ret].
  unfold bind at 1. rewrite call_time_run. cbv beta iota.
  match goal with
  | |- context [mkWorld ?e ?t ?n ?tr] => set (w1 := mkWorld e t n tr)
  end.
  destruct (scenario_loop_run speed c_freq perfect_csi direction
              (st_scenario sims) Hsup sims w1 Hpc Hdir)
    as (sims' & w2 & bers & blers & Hloop & Hs' & Hb & Hbl & Hfb & Hfbl
        & Hsims).
  unfold bind at 1. rewrite Hloop. cbv beta iota.
  unfold bind at 1. rewrite call_time_run. cbv beta iota.
  eexists. eexists. exists bers, blers.
  split; [reflexivity|]. cbn. rewrite Hs'. cbn.
  repeat (split; [first [reflexivity | assumption]|]).
  rewrite simulations_app, Hsims. subst w1. cbn [w_trace].
  rewrite simulations_app. cbn. now rewrite !app_nil_r.
Qed.

Section StudyRecords.

Context {L : Sionna}.

Variables speed c_freq : Q.
Variable perfect_csi : bool.
Variable direction : string.

(** The loop over the scenarios appends the curves that [sim_ber] returned
    for the model of each scenario, the BER list under "ber" and the BLER
    list under "bler". *)
Lemma scenario_loop_records (scenarios : list string) :
  Forall (fun s => In s supported_scenarios) scenarios ->
  forall (sims : Study) (w : World),
  nth_error (st_perfect_csi sims) 1 = Some perfect_csi ->
  nth_error (st_direction sims) 0 = Some direction ->
  exists sims' w' bers blers,
    scenario_loop sims speed c_freq scenarios w = (Py.Ok sims', w')
    /\ sims' = mkStudy (st_ebno_db sims) (st_scenario sims)
                 (st_perfect_csi sims) (st_direction sims)
                 (st_carrier_frequency sims) (st_speed sims)
                 (st_ber sims ++ bers)%list (st_bler sims ++ blers)%list
                 (st_duration sims)
    /\ simulated_curves speed c_freq perfect_csi direction (st_ebno_db sims)
                        scenarios w bers blers w'
    /\ List.length bers = List.length scenarios
    /\ List.length blers = List.length scenarios
    /\ Forall (fun c => List.length c = List.length (st_ebno_db sims)) bers
    /\ Forall (fun c => List.length c = List.length (st_ebno_db sims)) blers
    /\ simulations (w_trace w')
       = (simulations (w_trace w)
          ++ map (fun sc => (sc, perfect_csi, direction, speed, c_freq))
                 scenarios)%list.
Proof.
  induction 1 as [|scenario rest Hsup _ IH]; intros sims w Hpc Hdir.
  - exists sims, w, [], []. cbn. rewrite !app_nil_r.
    destruct sims. repeat split; constructor.
  - cbn [scenario_loop]. unfold getitem. rewrite Hpc, Hdir.
    unfold bind at 1. cbn [ret]. unfold bind at 1. cbn [ret].
    destruct (init_supported_run scenario perfect_csi direction speed
                c_freq w Hsup) as (m & w1 & evs & Hinit & Htr & Hevs).
    unfold bind at 1. rewrite Hinit.
    destruct (init_fields _ _ _ _ _ _ _ _ Hinit)
      as ((Hsc & Hcsi & Hd & Hsp & Hcf) & _).
    destruct (sim_ber_run m 76 100 1000 ltac:(lia) (st_ebno_db sims) w1)
      as (hs & w2 & Hrun & Hlen & _ & Hsim & _).
    unfold bind at 1. rewrite Hrun.
    match goal with
    | |- context [scenario_loop ?s _ _ _ _] => set (sims1 := s)
    end.
    destruct (IH sims1 w2 Hpc Hdir)
      as (sims' & w' & bers & blers & Hloop & Hs' & Hrec & Hb & Hbl & Hfb
          & Hfbl & Hsims).
    exists sims', w', (map ber_of hs :: bers), (map bler_of hs :: blers).
    split; [exact Hloop|].
    split.
    { rewrite Hs'. subst sims1. cbn. now rewrite <- !app_assoc. }
    split.
    { cbn [simulated_curves]. exists m, w1, w2.
      split; [exact Hinit|]. split; [exact Hrun|]. exact Hrec. }
    split; [cbn; now rewrite Hb|]. split; [cbn; now rewrite Hbl|].
    split; [constructor; [now rewrite List.length_map|exact Hfb]|].
    split; [constructor; [now rewrite List.length_map|exact Hfbl]|].
    rewrite Hsims, Hsim, Htr, simulations_app, Hevs, app_nil_r.
    rewrite Hsc, Hcsi, Hd, Hsp, Hcf. cbn. now rewrite <- app_assoc.
Qed.

(** The whole study: first clock reading, the loop, second clock reading;
    the curves recorded are those of the loop and the duration is the
    difference of the two readings. *)
Lemma run_study_records (sims : Study) (w : World) :
  nth_error (st_speed sims) 0 = Some speed ->
  nth_error (st_carrier_frequency sims) 0 = Some c_freq ->
  nth_error (st_perfect_csi sims) 1 = Some perfect_csi ->
  nth_error (st_direction sims) 0 = Some direction ->
  Forall (fun s => In s supported_scenarios) (st_scenario sims) ->
  exists sims' w' w2 bers blers,
    run_study sims w = (Py.Ok sims', w')
    /\ sims' = mkStudy (st_ebno_db sims) (st_scenario sims)
                 (st_perfect_csi sims) (st_direction sims)
                 (st_carrier_frequency sims) (st_speed sims)
                 (st_ber sims ++ bers)%list (st_bler sims ++ blers)%list
                 (Some (fst (time_time (w_env w2))
                        - fst (time_time (w_env w)))%Q)
    /\ simulated_curves speed c_freq perfect_csi direction (st_ebno_db sims)
                        (st_scenario sims) (snd (call_time w)) bers blers w2
    /\ w' = snd (call_time w2)
    /\ List.length bers = List.length (st_scenario sims)
    /\ List.length blers = List.length (st_scenario sims)
    /\ Forall (fun c => List.length c = List.length (st_ebno_db sims)) bers
    /\ Forall (fun c => List.length c = List.length (st_ebno_db sims)) blers
    /\ simulations (w_trace w')
       = (simulations (w_trace w)
          ++ map (fun sc => (sc, perfect_csi, direction, speed, c_freq))
                 (st_scenario sims))%list.
Proof.
  intros Hsp Hcf Hpc Hdir Hsup.
  unfold run_study, getitem. rewrite Hsp, Hcf.
  unfold bind at 1. cbn [ret]. unfold bind at 1. cbn [ret].
  unfold bind at 1. rewrite call_time_run. cbv beta iota.
  destruct (scenario_loop_records (st_scenario sims) Hsup sims
              (snd (call_time w)) Hpc Hdir)
    as (sims1 & w2 & bers & blers & Hloop & Hs1 & Hrec & Hb & Hbl & Hfb
        & Hfbl & Hsims).
  rewrite call_time_run in Hloop, Hsims. cbn [snd] in Hloop, Hsims.
  unfold bind at 1. rewrite Hloop. cbv beta iota.
  unfold bind at 1. rewrite call_time_run. cbv beta iota.
  eexists. eexists. exists w2, bers, blers.
  split; [reflexivity|].
  split; [rewrite Hs1; reflexivity|].
  split; [rewrite call_time_run in Hrec; exact Hrec|].
  split; [rewrite ?call_time_run; reflexivity|].
  do 4 (split; [assumption|]).
  cbn [w_trace]. rewrite simulations_app, Hsims. cbn [w_trace].
  rewrite simulations_app. cbn. now rewrite !app_nil_r.
Qed.

End StudyRecords.

(** C7: whatever supported scenarios the study lists, the run simulates
    each of them and appends exactly one BER list and one BLER list per
    scenario to the (initially empty) results: the lists that [sim_ber]
    returned for the model of that scenario, the BER list under "ber" and
    the BLER list under "bler", in the order of the scenarios.  Each list
    has one value per Eb/N0 point of the sweep, which has the 20 points
    -5, -4, ..., 14. *)
Theorem study_records_curves {L : Sionna}
    (scenarios : list string) (w : World) :
  Forall (fun s => In s supported_scenarios) scenarios ->
  exists sims' w' w2,
    run_study (with_scenarios MOBILITY_SIMS scenarios) w = (Py.Ok sims', w')
    /\ st_ebno_db sims'
       = map inject_Z [-5; -4; -3; -2; -1; 0; 1; 2; 3; 4; 5; 6; 7; 8; 9;
                       10; 11; 12; 13; 14]
    /\ List.length (st_ebno_db sims') = 20%nat
    /\ simulated_curves (0 # 1) (3500000000 # 1) false "uplink"
         (st_ebno_db sims') scenarios (snd (call_time w))
         (st_ber sims') (st_bler sims') w2
    /\ w' = snd (call_time w2)
    /\ simulations (w_trace w')
       = (simulations (w_trace w)
          ++ map (fun sc => (sc, false, "uplink", 0 # 1, 3500000000 # 1))
                 scenarios)%list
    /\ List.length (st_ber sims') = List.length scenarios
    /\ List.length (st_bler sims') = List.length scenarios
    /\ Forall (fun c => List.length c = 20%nat) (st_ber sims')
    /\ Forall (fun c => List.length c = 20%nat) (st_bler sims').
Proof.
  intros Hsup.
  destruct (run_study_records (0 # 1) (3500000000 # 1) false "uplink"
              (with_scenarios MOBILITY_SIMS scenarios) w
              eq_refl eq_refl eq_refl eq_refl Hsup)
    as (sims' & w' & w2 & bers & blers & Hrun & Hs' & Hrec & Hw' & Hb & Hbl
        & Hfb & Hfbl & Hsims).
  exists sims', w', w2. split; [exact Hrun|].
  rewrite Hs'. cbn [st_ebno_db st_ber st_bler with_scenarios].
  change (st_ber MOBILITY_SIMS) with (@nil (list Q)).
  change (st_bler MOBILITY_SIMS) with (@nil (list Q)).
  cbn [app].
  split; [reflexivity|]. split; [reflexivity|].
  split; [exact Hrec|]. split; [exact Hw'|]. split; [exact Hsims|].
  repeat split; assumption.
Qed.

Lemma study_records_curves_witness :
  Forall (fun s => In s supported_scenarios) ["umi"]
  /\ exists sims' (w' : @World Toy.lib) model w1 w2 ber bler,
       run_study MOBILITY_SIMS Toy.world0 = (Py.Ok sims', w')
       /\ __init__ "umi" false "uplink" (0 # 1) (3500000000 # 1)
                   (snd (call_time Toy.world0)) = (Py.Ok model, w1)
       /\ sim_ber model (st_ebno_db MOBILITY_SIMS) 76 100 1000 w1
          = (Py.Ok (ber, bler), w2)
       /\ st_ber sims' = [ber] /\ st_bler sims' = [bler]
       /\ List.length ber = 20%nat /\ List.length bler = 20%nat.
Proof.
  assert (Hsup : Forall (fun s => In s supported_scenarios) ["umi"]).
  { constructor; [simpl; tauto | constructor]. }
  split; [exact Hsup|].
  destruct (@study_records_curves Toy.lib ["umi"] Toy.world0 Hsup)
    as (sims' & w' & w2 & Hrun & Hebno & _ & Hrec & _ & _ & Hb & Hbl & Hfb
        & Hfbl).
  destruct (st_ber sims') as [|ber [|]] eqn:Eber; try discriminate Hb.
  destruct (st_bler sims') as [|bler [|]] eqn:Ebler; try discriminate Hbl.
  cbn [simulated_curves] in Hrec.
  destruct Hrec as (model & w1 & w3 & Hinit & Hsim & _).
  exists sims', w', model, w1, w3, ber, bler.
  split; [exact Hrun|]. split; [exact Hinit|].
  split; [rewrite Hebno in Hsim; exact Hsim|].
  split; [exact Eber|]. split; [exact Ebler|].
  split; [now inversion Hfb | now inversion Hfbl].
Defined.

(** C3, as stated, fails: the study lists the speed 15 m/s, but the run of
    the study simulates no model with that speed. *)
Lemma study_does_not_sweep :
  ~ sweeps_every_combination MOBILITY_SIMS
      (w_trace (snd (@run_study Toy.lib MOBILITY_SIMS Toy.world0))).
Proof.
  intros Hall.
  destruct (Hall (15 # 1) (3500000000 # 1) false)
    as (scenario & direction & Hin); try (simpl; tauto).
  vm_compute in Hin.
  destruct Hin as [Heq | []]. discriminate Heq.
Qed.

(** C3, amended: the run simulates one model per listed scenario and
    records the BER and the BLER curve that this simulation returned;
    every one of these models has the first listed speed, the first listed
    carrier frequency, the first listed direction and the second listed
    CSI flag, and no other simulation is run. *)
Theorem study_simulates_first_settings {L : Sionna}
    (sims : Study) (w : World)
    (speed c_freq : Q) (perfect_csi : bool) (direction : string) :
  nth_error (st_speed sims) 0 = Some speed ->
  nth_error (st_carrier_frequency sims) 0 = Some c_freq ->
  nth_error (st_perfect_csi sims) 1 = Some perfect_csi ->
  nth_error (st_direction sims) 0 = Some direction ->
  Forall (fun s => In s supported_scenarios) (st_scenario sims) ->
  exists sims' w' w2 bers blers,
    run_study sims w = (Py.Ok sims', w')
    /\ simulations (w_trace w')
       = (simulations (w_trace w)
          ++ map (fun sc => (sc, perfect_csi, direction, speed, c_freq))
                 (st_scenario sims))%list
    /\ st_ber sims' = (st_ber sims ++ bers)%list
    /\ st_bler sims' = (st_bler sims ++ blers)%list
    /\ simulated_curves speed c_freq perfect_csi direction (st_ebno_db sims)
         (st_scenario sims) (snd (call_time w)) bers blers w2
    /\ w' = snd (call_time w2)
    /\ List.length bers = List.length (st_scenario sims)
    /\ List.length blers = List.length (st_scenario sims).
Proof.
  intros Hsp Hcf Hpc Hdir Hsup.
  destruct (run_study_records speed c_freq perfect_csi direction sims w
              Hsp Hcf Hpc Hdir Hsup)
    as (sims' & w' & w2 & bers & blers & Hrun & Hs' & Hrec & Hw' & Hb & Hbl
        & _ & _ & Hsims).
  exists sims', w', w2, bers, blers.
  split; [exact Hrun|]. split; [exact Hsims|].
  rewrite Hs'. cbn [st_ber st_bler].
  repeat split; assumption.
Qed.

Lemma study_simulates_first_settings_witness :
  exists sims' (w' : @World Toy.lib) model w1 w2 ber bler,
    run_study MOBILITY_SIMS Toy.world0 = (Py.Ok sims', w')
    /\ simulations (w_trace w')
       = [("umi", false, "uplink", 0 # 1, 3500000000 # 1)]
    /\ __init__ "umi" false "uplink" (0 # 1) (3500000000 # 1)
                (snd (call_time Toy.world0)) = (Py.Ok model, w1)
    /\ sim_ber model (st_ebno_db MOBILITY_SIMS) 76 100 1000 w1
       = (Py.Ok (ber, bler), w2)
    /\ st_ber sims' = [ber] /\ st_bler sims' = [bler].
Proof.
  assert (Hsup : Forall (fun s => In s supported_scenarios)
                        (st_scenario MOBILITY_SIMS)).
  { constructor; [simpl; tauto | constructor]. }
  destruct (@study_simulates_first_settings Toy.lib MOBILITY_SIMS Toy.world0
              (0 # 1) (3500000000 # 1) false "uplink"
              eq_refl eq_refl eq_refl eq_refl Hsup)
    as (sims' & w' & w2 & bers & blers & Hrun & Hsims & Hber & Hbler & Hrec
        & _ & Hb & Hbl).
  change (st_ber MOBILITY_SIMS) with (@nil (list Q)) in Hber.
  change (st_bler MOBILITY_SIMS) with (@nil (list Q)) in Hbler.
  cbn [app] in Hber, Hbler.
  change (st_scenario MOBILITY_SIMS) with ["umi"] in Hrec, Hb, Hbl.
  destruct bers as [|ber [|]]; try discriminate Hb.
  destruct blers as [|bler [|]]; try discriminate Hbl.
  cbn [simulated_curves] in Hrec.
  destruct Hrec as (model & w1 & w3 & Hinit & Hsim & _).
  exists sims', w', model, w1, w3, ber, bler.
  split; [exact Hrun|]. split; [exact Hsims|].
  split; [exact Hinit|]. split; [exact Hsim|].
  split; assumption.
Defined.

(* ================================================================== *)
(** * Further properties of the script *)

(* ------------------------------------------------------------------ *)
(** ** Objects of a constructed model *)

Section ConstructedModel.

Context {L : Sionna}.

Lemma init_raises scenario perfect_csi direction speed carrier_frequency
    (w : World) :
  ~ In scenario supported_scenarios ->
  exists w',
    __init__ scenario perfect_csi direction speed carrier_frequency w
    = (Py.Raise (Py.AttributeError "_channel_model"), w')
    /\ simulations (w_trace w') = simulations (w_trace w)
    /\ w_next w' = w_next w.
Proof.
  intros Hn.
  destruct (not_supported_tests scenario Hn) as (H1 & H2 & H3 & H4).
  unfold __init__, new, configure_channel_model.
  rewrite H1, H2, H3, H4. cbn. eexists. split; [reflexivity|].
  cbn. repeat rewrite simulations_app. cbn.
  repeat rewrite app_nil_r. split; reflexivity.
Qed.

Lemma init_ok_supported scenario perfect_csi direction speed
    carrier_frequency (w w' : World) (m : MimoOfdmSystemModel) :
  __init__ scenario perfect_csi direction speed carrier_frequency w
    = (Py.Ok m, w') ->
  In scenario supported_scenarios.
Proof.
  intros Hinit.
  destruct (in_dec string_dec scenario supported_scenarios) as [Hin | Hn];
    [exact Hin|].
  destruct (init_raises scenario perfect_csi direction speed
              carrier_frequency w Hn) as (w'' & Hr & _).
  rewrite Hr in Hinit. discriminate Hinit.
Qed.

(** What construction does to the world: one fresh channel-model object
    without topology, nothing drawn, every other object as before. *)
Lemma init_world scenario perfect_csi direction speed carrier_frequency
    (w w' : World) (m : MimoOfdmSystemModel) :
  __init__ scenario perfect_csi direction speed carrier_frequency w
    = (Py.Ok m, w') ->
  cm_ref (_channel_model m) = w_next w
  /\ w_next w' = S (w_next w)
  /\ w_topology w' = delete (w_next w) (w_topology w)
  /\ w_env w' = w_env w
  /\ cm_carrier_frequency (cm_config (_channel_model m)) = carrier_frequency
  /\ cm_direction (cm_config (_channel_model m)) = direction
  /\ cm_ut_array (cm_config (_channel_model m)) = _ut_array m
  /\ cm_bs_array (cm_config (_channel_model m)) = _bs_array m.
Proof.
  intros Hinit.
  pose proof (init_ok_supported _ _ _ _ _ _ _ _ Hinit) as Hin.
  revert Hinit.
  repeat (destruct Hin as [<- | Hin];
          [cbn; intros H; injection H as <- <-; cbn;
           repeat split; reflexivity|]).
  destruct Hin.
Qed.

(** The attributes [__init__] sets from its own constants. *)
Lemma init_constants scenario perfect_csi direction speed carrier_frequency
    (w w' : World) (m : MimoOfdmSystemModel) :
  __init__ scenario perfect_csi direction speed carrier_frequency w
    = (Py.Ok m, w') ->
  _num_ut_ant m = 4 /\ _num_bs_ant m = 8 /\ _num_bs m = 1
  /\ _ut_array m = the_array 2 carrier_frequency
  /\ _bs_array m = the_array 4 carrier_frequency
  /\ _qam_source m = mkQAMSource 2
  /\ _fft_size m = 76 /\ _num_ofdm_symbols m = 14
  /\ _pilot_ofdm_symbol_indices m = [2; 11].
Proof.
  unfold __init__, new. cbn. unfold bind at 1.
  match goal with
  | |- context [configure_channel_model ?a ?b ?c ?d ?e ?f ?g ?h] =>
      destruct (configure_channel_model_ok a b c d e f g h)
        as (r & w1 & Hc); rewrite Hc
  end.
  destruct r as [cm|]; cbn; intros H; [|discriminate H].
  injection H as Hm _. subst m. cbn. repeat split; reflexivity.
Qed.

(** A forward pass changes the store of installed topologies at most at
    the reference of the model's own channel model. *)
Lemma call_topology_frame (self : MimoOfdmSystemModel) (batch_size : Z)
    (ebno_db : Q) (w : World) (r : nat) :
  r <> cm_ref (_channel_model self) ->
  w_topology (snd (call self batch_size ebno_db w)) !! r = w_topology w !! r.
Proof.
  intros Hne. rewrite call_run. cbn. unfold topology_step.
  destruct (draws_topology (_scenario self)); [|reflexivity].
  destruct (gen_topology _ _ _ _ _ _) as [t e']. cbn.
  now apply lookup_insert_ne.
Qed.

End ConstructedModel.

(** X1: on a model of scenario "umi", "uma" or "rma" the OFDM channel of a
    forward pass is applied in the topology drawn in that same pass: the
    channel object is built on the model's channel model, so it sees what
    [new_topology] has just installed.  The random draws happen in the
    order topology, source bits, channel. *)
Theorem call_channel_sees_new_topology {L : Sionna}
    (scenario : string) (perfect_csi : bool) (direction : string)
    (speed carrier_frequency : Q) (w0 w1 : World)
    (self : MimoOfdmSystemModel) (batch_size : Z) (ebno_db : Q)
    (w : World) :
  __init__ scenario perfect_csi direction speed carrier_frequency w0
    = (Py.Ok self, w1) ->
  In scenario stochastic_scenarios ->
  let drawn := gen_topology batch_size 1 scenario speed speed (w_env w) in
  let no := ebnodb2no ebno_db 2 (1 # 2) the_rg in
  let src := binary_source (_binary_source self)
               [batch_size; 1; 4; _k self] (snd drawn) in
  let ch := apply_channel (_ofdm_channel self) (Some (fst drawn))
              (transmit self (fst src)) no (snd src) in
  exists w',
    call self batch_size ebno_db w
    = (Py.Ok (fst src, receive self (fst (fst ch)) (snd (fst ch)) no), w')
    /\ w_env w' = snd ch
    /\ w_topology w' !! cm_ref (_channel_model self) = Some (fst drawn).
Proof.
  intros Hinit Hin. cbv zeta.
  destruct (init_fields _ _ _ _ _ _ _ _ Hinit)
    as ((Hsc & _ & _ & Hsp & _) & (Hut & Htx & Hst & Hbits & Hrate)
        & (Hrg & _) & _ & (Hoc & _)).
  rewrite call_run. cbv zeta.
  unfold topology_step.
  rewrite Hsc, (stochastic_draws _ Hin), Hsp, Hut, Htx, Hst, Hbits, Hrate, Hrg.
  destruct (gen_topology batch_size 1 scenario speed speed (w_env w))
    as [t e1]. cbn [w_env w_topology fst snd].
  rewrite Hoc. cbn [oc_channel_model]. rewrite lookup_insert_eq.
  rewrite <- Hoc.
  eexists. split; [reflexivity|]. split; [reflexivity|].
  cbn. apply lookup_insert_eq.
Qed.

Lemma call_channel_sees_new_topology_witness :
  exists self w1 (w' : @World Toy.lib),
    @__init__ Toy.lib "rma" false "uplink" (15 # 1) (3500000000 # 1)
              Toy.world0 = (Py.Ok self, w1)
    /\ snd (call self 76 (3 # 1) w1) = w'
    /\ w_topology w' !! cm_ref (_channel_model self) = Some 0.
Proof.
  destruct (@__init__ Toy.lib "rma" false "uplink" (15 # 1) (3500000000 # 1)
              Toy.world0) as [[self | e] w1] eqn:Hinit;
    [|vm_compute in Hinit; discriminate Hinit].
  assert (Hin : In "rma" stochastic_scenarios) by (simpl; tauto).
  destruct (call_channel_sees_new_topology _ _ _ _ _ _ _ self 76 (3 # 1) w1
              Hinit Hin) as (w' & Hcall & _ & Htop).
  exists self, w1, w'. split; [reflexivity|].
  split; [now rewrite Hcall|].
  refine (eq_trans Htop _).
  destruct (init_world _ _ _ _ _ _ _ _ Hinit) as (_ & _ & _ & Henv & _).
  cbn. cbn in Henv. now rewrite Henv.
Defined.

(** X2: the channel model of a CDL model ("A" to "E") never has a topology:
    none is installed when the model is constructed, and a forward pass
    from a world where none is installed applies the channel without
    topology and leaves none installed. *)
Theorem cdl_channel_never_has_topology {L : Sionna}
    (scenario : string) (perfect_csi : bool) (direction : string)
    (speed carrier_frequency : Q) (w0 w1 : World)
    (self : MimoOfdmSystemModel) :
  __init__ scenario perfect_csi direction speed carrier_frequency w0
    = (Py.Ok self, w1) ->
  In scenario cdl_scenarios ->
  w_topology w1 !! cm_ref (_channel_model self) = None
  /\ forall (batch_size : Z) (ebno_db : Q) (w : World),
       w_topology w !! cm_ref (_channel_model self) = None ->
       let no := ebnodb2no ebno_db 2 (1 # 2) the_rg in
       let src := binary_source (_binary_source self)
                    [batch_size; 1; 4; _k self] (w_env w) in
       let ch := apply_channel (_ofdm_channel self) None
                   (transmit self (fst src)) no (snd src) in
       exists w',
         call self batch_size ebno_db w
         = (Py.Ok (fst src, receive self (fst (fst ch)) (snd (fst ch)) no),
            w')
         /\ w_topology w' !! cm_ref (_channel_model self) = None.
Proof.
  intros Hinit Hin.
  destruct (init_world _ _ _ _ _ _ _ _ Hinit) as (Href & _ & Htop & _).
  destruct (init_fields _ _ _ _ _ _ _ _ Hinit)
    as ((Hsc & _) & (_ & Htx & Hst & Hbits & Hrate) & (Hrg & _) & _
        & (Hoc & _)).
  split.
  - rewrite Htop, Href. apply lookup_delete_eq.
  - intros batch_size ebno_db w Hnone. cbv zeta.
    rewrite call_run. cbv zeta. unfold topology_step.
    rewrite Hsc, (cdl_does_not_draw _ Hin), Htx, Hst, Hbits, Hrate, Hrg.
    rewrite Hoc. cbn [oc_channel_model]. rewrite Hnone. rewrite <- Hoc.
    eexists. split; [reflexivity|]. exact Hnone.
Qed.

Lemma cdl_channel_never_has_topology_witness :
  exists self (w1 w' : @World Toy.lib),
    @__init__ Toy.lib "D" true "uplink" (30 # 1) (28000000000 # 1)
              Toy.world0 = (Py.Ok self, w1)
    /\ snd (call self 76 (3 # 1) w1) = w'
    /\ w_topology w' !! cm_ref (_channel_model self) = None.
Proof.
  destruct (@__init__ Toy.lib "D" true "uplink" (30 # 1) (28000000000 # 1)
              Toy.world0) as [[self | e] w1] eqn:Hinit;
    [|vm_compute in Hinit; discriminate Hinit].
  assert (Hin : In "D" cdl_scenarios) by (simpl; tauto).
  destruct (cdl_channel_never_has_topology _ _ _ _ _ _ _ self Hinit Hin)
    as (Hnone & Hpass).
  destruct (Hpass 76 (3 # 1) w1 Hnone) as (w' & Hcall & Hnone').
  exists self, w1, w'. split; [reflexivity|].
  split; [now rewrite Hcall | exact Hnone'].
Defined.

(** X3: two models constructed one after the other have different
    channel-model objects, and a forward pass on either model leaves the
    topology installed in the other one's channel model as it is. *)
Theorem models_have_separate_channel_models {L : Sionna}
    (scenario1 scenario2 : string) (perfect_csi1 perfect_csi2 : bool)
    (direction1 direction2 : string)
    (speed1 speed2 carrier_frequency1 carrier_frequency2 : Q)
    (w0 w1 w2 w3 : World) (m1 m2 : MimoOfdmSystemModel) :
  __init__ scenario1 perfect_csi1 direction1 speed1 carrier_frequency1 w0
    = (Py.Ok m1, w1) ->
  (w_next w1 <= w_next w2)%nat ->
  __init__ scenario2 perfect_csi2 direction2 speed2 carrier_frequency2 w2
    = (Py.Ok m2, w3) ->
  cm_ref (_channel_model m1) <> cm_ref (_channel_model m2)
  /\ forall (batch_size : Z) (ebno_db : Q) (w : World),
       w_topology (snd (call m2 batch_size ebno_db w))
         !! cm_ref (_channel_model m1)
       = w_topology w !! cm_ref (_channel_model m1)
       /\ w_topology (snd (call m1 batch_size ebno_db w))
            !! cm_ref (_channel_model m2)
          = w_topology w !! cm_ref (_channel_model m2).
Proof.
  intros Hinit1 Hle Hinit2.
  destruct (init_world _ _ _ _ _ _ _ _ Hinit1) as (Href1 & Hnext1 & _).
  destruct (init_world _ _ _ _ _ _ _ _ Hinit2) as (Href2 & _).
  assert (Hne : cm_ref (_channel_model m1) <> cm_ref (_channel_model m2))
    by lia.
  split; [exact Hne|].
  intros batch_size ebno_db w. split.
  - now apply call_topology_frame.
  - apply call_topology_frame. intros Heq. now apply Hne.
Qed.

Lemma models_have_separate_channel_models_witness :
  exists m1 m2 (w1 w3 : @World Toy.lib),
    @__init__ Toy.lib "umi" false "uplink" (0 # 1) (3500000000 # 1)
              Toy.world0 = (Py.Ok m1, w1)
    /\ __init__ "uma" false "uplink" (0 # 1) (3500000000 # 1)
                (snd (call m1 76 (3 # 1) w1)) = (Py.Ok m2, w3)
    /\ cm_ref (_channel_model m1) <> cm_ref (_channel_model m2).
Proof.
  destruct (@__init__ Toy.lib "umi" false "uplink" (0 # 1) (3500000000 # 1)
              Toy.world0) as [[m1 | e] w1] eqn:Hinit1;
    [|vm_compute in Hinit1; discriminate Hinit1].
  assert (Hsup : In "uma" supported_scenarios) by (simpl; tauto).
  destruct (init_supported_run "uma" false "uplink" (0 # 1)
              (3500000000 # 1) (snd (call m1 76 (3 # 1) w1)) Hsup)
    as (m2 & w3 & evs & Hinit2 & _).
  assert (Hle : (w_next w1 <= w_next (snd (call m1 76 (3 # 1) w1)))%nat).
  { rewrite call_run. cbn. lia. }
  exists m1, m2, w1, w3. split; [reflexivity|]. split; [exact Hinit2|].
  exact (proj1 (models_have_separate_channel_models _ _ _ _ _ _ _ _ _ _
                  _ _ _ _ m1 m2 Hinit1 Hle Hinit2)).
Defined.

(** X4: in a constructed model every block is built on the one resource
    grid of the model; the grid, the stream management and the source shape
    agree on one transmitter with as many streams as the terminal has
    antennas; mapper, demapper and noise-power computation use the same
    number of bits per symbol; and the channel model is built on the
    model's own antenna arrays, direction and carrier frequency, each array
    having half as many columns as antennas (dual polarization). *)
Theorem init_wires_blocks_consistently {L : Sionna}
    (scenario : string) (perfect_csi : bool) (direction : string)
    (speed carrier_frequency : Q) (w w' : World)
    (m : MimoOfdmSystemModel) :
  __init__ scenario perfect_csi direction speed carrier_frequency w
    = (Py.Ok m, w') ->
  (rgm_resource_grid (_rg_mapper m) = _rg m
   /\ oc_resource_grid (_ofdm_channel m) = _rg m
   /\ rns_resource_grid (_remove_nulled_subcarriers m) = _rg m
   /\ ls_resource_grid (_ls_est m) = _rg m
   /\ eq_resource_grid (_lmmse_equ m) = _rg m)
  /\ (rg_num_tx (_rg m) = _num_tx m
      /\ _num_tx m = _num_ut m
      /\ rg_num_streams_per_tx (_rg m) = _num_streams_per_tx m
      /\ sm_num_streams_per_tx (eq_stream_management (_lmmse_equ m))
         = _num_streams_per_tx m
      /\ _num_streams_per_tx m = _num_ut_ant m)
  /\ (map_num_bits_per_symbol (_mapper m) = _num_bits_per_symbol m
      /\ dm_num_bits_per_symbol (_demapper m) = _num_bits_per_symbol m
      /\ map_constellation_type (_mapper m)
         = dm_constellation_type (_demapper m))
  /\ (cm_ut_array (cm_config (_channel_model m)) = _ut_array m
      /\ cm_bs_array (cm_config (_channel_model m)) = _bs_array m
      /\ cm_direction (cm_config (_channel_model m)) = _direction m
      /\ cm_carrier_frequency (cm_config (_channel_model m))
         = _carrier_frequency m
      /\ aa_carrier_frequency (_ut_array m) = _carrier_frequency m
      /\ aa_carrier_frequency (_bs_array m) = _carrier_frequency m
      /\ aa_num_cols (_ut_array m) * 2 = _num_ut_ant m
      /\ aa_num_cols (_bs_array m) * 2 = _num_bs_ant m).
Proof.
  intros Hinit.
  destruct (init_fields _ _ _ _ _ _ _ _ Hinit)
    as ((_ & _ & Hdir & _ & Hcf) & (Hut & Htx & Hst & Hbits & _)
        & (Hrg & Hsm & _) & (_ & _ & Hmap & Hrgm & Hdem)
        & (Hoc & Hrns & Hls & Hequ)).
  destruct (init_constants _ _ _ _ _ _ _ _ Hinit)
    as (Huta & Hbsa & _ & Huarr & Hbarr & _).
  destruct (init_world _ _ _ _ _ _ _ _ Hinit)
    as (_ & _ & _ & _ & Hccf & Hcdir & Hcut & Hcbs).
  rewrite Hrgm, Hoc, Hrns, Hls, Hequ, Hmap, Hdem, Hsm, Hrg, Htx, Hst, Hut,
    Hbits, Huta, Hbsa, Hccf, Hcdir, Hcut, Hcbs, Huarr, Hbarr, Hdir, Hcf.
  cbn. repeat split; reflexivity.
Qed.

Lemma init_wires_blocks_consistently_witness :
  exists m (w' : @World Toy.lib),
    @__init__ Toy.lib "A" true "downlink" (0 # 1) (60000000000 # 1)
              Toy.world0 = (Py.Ok m, w')
    /\ eq_resource_grid (_lmmse_equ m) = rgm_resource_grid (_rg_mapper m)
    /\ cm_bs_array (cm_config (_channel_model m)) = _bs_array m.
Proof.
  destruct (@__init__ Toy.lib "A" true "downlink" (0 # 1) (60000000000 # 1)
              Toy.world0) as [[m | e] w'] eqn:Hinit;
    [|vm_compute in Hinit; discriminate Hinit].
  destruct (init_wires_blocks_consistently _ _ _ _ _ _ _ m Hinit)
    as ((Hrgm & _ & _ & _ & Hequ) & _ & _ & (_ & Hbs & _)).
  exists m, w'. split; [reflexivity|].
  split; [now rewrite Hequ, Hrgm | exact Hbs].
Defined.

(* ------------------------------------------------------------------ *)
(** ** Failure and edge cases of the study *)

Lemma no_clock_app (l1 l2 : list Event) :
  no_clock l1 -> no_clock l2 -> no_clock (l1 ++ l2).
Proof.
  unfold no_clock. intros H1 H2. rewrite forallb_app, H1, H2. reflexivity.
Qed.

Lemma call_events_no_clock (self : MimoOfdmSystemModel) (batch_size : Z) :
  no_clock (call_events self batch_size).
Proof.
  unfold no_clock, call_events, topology_events, forward_blocks.
  now destruct (draws_topology (_scenario self)).
Qed.

Section StudyTrace.

Context {L : Sionna}.

Lemma mc_loop_no_clock (mc_fun : MimoOfdmSystemModel) (ebno_db : Q)
    (batch_size target : Z) (fuel : nat) :
  forall (done : list BatchStats) (w : World),
  exists evs,
    w_trace (snd (mc_loop mc_fun ebno_db batch_size target fuel done w))
    = (w_trace w ++ evs)%list
    /\ no_clock evs.
Proof.
  induction fuel as [|fuel' IH]; intros done w.
  - exists []. cbn. now rewrite app_nil_r.
  - cbn [mc_loop]. unfold bind at 1. rewrite call_run. cbv zeta.
    match goal with
    | |- context [batch_stats ?b ?bh] => set (s := batch_stats b bh)
    end.
    match goal with
    | |- context [mkWorld ?e ?t ?n ?tr] => set (w1 := mkWorld e t n tr)
    end.
    destruct (Z.leb target (total bs_block_errors (done ++ [s]))).
    + exists (call_events mc_fun batch_size).
      split; [reflexivity | apply call_events_no_clock].
    + destruct (IH (done ++ [s])%list w1) as (evs & Htr & Hno).
      exists (call_events mc_fun batch_size ++ evs)%list.
      split.
      * rewrite Htr. subst w1. cbn [w_trace]. now rewrite <- app_assoc.
      * apply no_clock_app; [apply call_events_no_clock | exact Hno].
Qed.

Lemma sim_points_no_clock (mc_fun : MimoOfdmSystemModel)
    (batch_size max_mc_iter target : Z) (ebno_dbs : list Q) :
  forall w : World,
  exists evs,
    w_trace (snd (sim_points mc_fun ebno_dbs batch_size max_mc_iter target w))
    = (w_trace w ++ evs)%list
    /\ no_clock evs.
Proof.
  induction ebno_dbs as [|ebno_db rest IH]; intros w.
  - exists []. cbn. now rewrite app_nil_r.
  - cbn [sim_points]. unfold bind at 1.
    destruct (mc_loop_no_clock mc_fun ebno_db batch_size target
                (Z.to_nat max_mc_iter) [] w) as (evs1 & Htr1 & Hno1).
    destruct (mc_loop_run mc_fun batch_size target ebno_db
                (Z.to_nat max_mc_iter) [] w)
      as (h & w1 & new & Hrun & _).
    rewrite Hrun in Htr1 |- *. cbn [snd] in Htr1.
    destruct (IH w1) as (evs2 & Htr2 & Hno2).
    unfold bind at 1.
    destruct (sim_points mc_fun rest batch_size max_mc_iter target w1)
      as [[hs | e] w2]; cbn [snd] in Htr2;
      exists (evs1 ++ evs2)%list;
      (split; [cbn; now rewrite Htr2, Htr1, <- app_assoc
              | now apply no_clock_app]).
Qed.

Lemma sim_ber_no_clock (mc_fun : MimoOfdmSystemModel)
    (batch_size max_mc_iter target : Z) (ebno_dbs : list Q) (w : World) :
  exists evs,
    w_trace (snd (sim_ber mc_fun ebno_dbs batch_size max_mc_iter target w))
    = (w_trace w ++ evs)%list
    /\ no_clock evs.
Proof.
  unfold sim_ber, bind at 1, log.
  match goal with
  | |- context [mkWorld ?e ?t ?n ?tr] => set (w1 := mkWorld e t n tr)
  end.
  destruct (sim_points_no_clock mc_fun batch_size max_mc_iter target
              ebno_dbs w1) as (evs & Htr & Hno).
  unfold bind at 1.
  destruct (sim_points mc_fun ebno_dbs batch_size max_mc_iter target w1)
    as [[hs | e] w2]; cbn [snd] in Htr;
    exists (EvSimBer mc_fun batch_size max_mc_iter target :: evs);
    (split; [cbn; rewrite Htr; subst w1; cbn [w_trace];
             now rewrite <- app_assoc
            | exact Hno]).
Qed.

Lemma init_no_clock scenario perfect_csi direction speed carrier_frequency
    (w : World) :
  In scenario supported_scenarios ->
  exists evs,
    w_trace (snd (__init__ scenario perfect_csi direction speed
                           carrier_frequency w))
    = (w_trace w ++ evs)%list
    /\ no_clock evs.
Proof.
  intros Hin.
  repeat (destruct Hin as [<- | Hin];
          [eexists; cbn; repeat rewrite <- app_assoc;
           split; reflexivity|]).
  destruct Hin.
Qed.

(** A successful loop over the scenarios: all of them are supported, the
    study keeps its configuration, gets one BER and one BLER list more per
    scenario, and the clock is not read. *)
Lemma scenario_loop_inv (speed c_freq : Q) (scenarios : list string) :
  forall (sims sims' : Study) (w w' : World),
  scenario_loop sims speed c_freq scenarios w = (Py.Ok sims', w') ->
  Forall (fun s => In s supported_scenarios) scenarios
  /\ (exists bers blers,
        sims' = mkStudy (st_ebno_db sims) (st_scenario sims)
                  (st_perfect_csi sims) (st_direction sims)
                  (st_carrier_frequency sims) (st_speed sims)
                  (st_ber sims ++ bers)%list (st_bler sims ++ blers)%list
                  (st_duration sims)
        /\ List.length bers = List.length scenarios
        /\ List.length blers = List.length scenarios)
  /\ (exists evs, w_trace w' = (w_trace w ++ evs)%list /\ no_clock evs).
Proof.
  induction scenarios as [|scenario rest IH]; intros sims sims' w w' Hloop.
  - cbn in Hloop. injection Hloop as <- <-.
    split; [constructor|]. split.
    + exists [], []. rewrite !app_nil_r. destruct sims. now repeat split.
    + exists []. now rewrite app_nil_r.
  - cbn [scenario_loop] in Hloop. unfold getitem in Hloop.
    destruct (nth_error (st_perfect_csi sims) 1) as [pc|];
      [|discriminate Hloop].
    destruct (nth_error (st_direction sims) 0) as [dir|];
      [|discriminate Hloop].
    unfold bind at 1 in Hloop. cbn [ret] in Hloop.
    unfold bind at 1 in Hloop. cbn [ret] in Hloop.
    destruct (in_dec string_dec scenario supported_scenarios) as [Hin | Hn].
    2:{ destruct (init_raises scenario pc dir speed c_freq w Hn)
          as (w1 & Hr & _).
        unfold bind at 1 in Hloop. rewrite Hr in Hloop.
        discriminate Hloop. }
    destruct (init_no_clock scenario pc dir speed c_freq w Hin)
      as (evs1 & Htr1 & Hno1).
    destruct (init_supported_run scenario pc dir speed c_freq w Hin)
      as (m & w1 & _ & Hinit & _).
    rewrite Hinit in Htr1. cbn [snd] in Htr1.
    unfold bind at 1 in Hloop. rewrite Hinit in Hloop.
    destruct (sim_ber_no_clock m 76 100 1000 (st_ebno_db sims) w1)
      as (evs2 & Htr2 & Hno2).
    destruct (sim_ber_run m 76 100 1000 ltac:(lia) (st_ebno_db sims) w1)
      as (hs & w2 & Hrun & _).
    rewrite Hrun in Htr2. cbn [snd] in Htr2.
    unfold bind at 1 in Hloop. rewrite Hrun in Hloop.
    destruct (IH _ _ _ _ Hloop)
      as (Hsup & (bers & blers & Hs' & Hb & Hbl) & (evs3 & Htr3 & Hno3)).
    split; [now constructor|]. split.
    + exists (map ber_of hs :: bers), (map bler_of hs :: blers).
      split; [rewrite Hs'; cbn; now rewrite <- !app_assoc|].
      cbn. now rewrite Hb, Hbl.
    + exists (evs1 ++ evs2 ++ evs3)%list. split.
      * rewrite Htr3, Htr2, Htr1. now rewrite <- !app_assoc.
      * now repeat apply no_clock_app.
Qed.

End StudyTrace.

Section StudyEdges.

Context {L : Sionna}.

(** The loop fails at the first scenario that no branch of [__init__]
    knows; the scenarios before it have been simulated by then. *)
Lemma scenario_loop_fails (speed c_freq : Q) (perfect_csi : bool)
    (direction bad : string) (post pre : list string) :
  Forall (fun s => In s supported_scenarios) pre ->
  ~ In bad supported_scenarios ->
  forall (sims : Study) (w : World),
  nth_error (st_perfect_csi sims) 1 = Some perfect_csi ->
  nth_error (st_direction sims) 0 = Some direction ->
  exists w',
    scenario_loop sims speed c_freq (pre ++ bad :: post) w
    = (Py.Raise (Py.AttributeError "_channel_model"), w')
    /\ simulations (w_trace w')
       = (simulations (w_trace w)
          ++ map (fun sc => (sc, perfect_csi, direction, speed, c_freq))
                 pre)%list.
Proof.
  intros Hpre Hbad.
  induction Hpre as [|scenario rest Hsup _ IH]; intros sims w Hpc Hdir.
  - cbn [app scenario_loop]. unfold getitem. rewrite Hpc, Hdir.
    unfold bind at 1. cbn [ret]. unfold bind at 1. cbn [ret].
    destruct (init_raises bad perfect_csi direction speed c_freq w Hbad)
      as (w' & Hr & Hsim & _).
    exists w'. unfold bind at 1. rewrite Hr.
    split; [reflexivity|]. cbn. now rewrite app_nil_r.
  - cbn [app scenario_loop]. unfold getitem. rewrite Hpc, Hdir.
    unfold bind at 1. cbn [ret]. unfold bind at 1. cbn [ret].
    destruct (init_supported_run scenario perfect_csi direction speed
                c_freq w Hsup) as (m & w1 & evs & Hinit & Htr & Hevs).
    unfold bind at 1. rewrite Hinit.
    destruct (init_fields _ _ _ _ _ _ _ _ Hinit)
      as ((Hsc & Hcsi & Hd & Hsp & Hcf) & _).
    destruct (sim_ber_run m 76 100 1000 ltac:(lia) (st_ebno_db sims) w1)
      as (hs & w2 & Hrun & _ & _ & Hsim & _).
    unfold bind at 1. rewrite Hrun.
    match goal with
    | |- context [scenario_loop ?s _ _ _ _] => set (sims1 := s)
    end.
    destruct (IH sims1 w2 Hpc Hdir) as (w' & Hloop & Hsims).
    exists w'. split; [exact Hloop|].
    rewrite Hsims, Hsim, Htr, simulations_app, Hevs, app_nil_r.
    rewrite Hsc, Hcsi, Hd, Hsp, Hcf. cbn. now rewrite <- app_assoc.
Qed.

(** A successful study, taken apart. *)
Lemma run_study_inv (sims sims' : Study) (w w' : World) :
  run_study sims w = (Py.Ok sims', w') ->
  Forall (fun s => In s supported_scenarios) (st_scenario sims)
  /\ (exists bers blers stop,
        sims' = mkStudy (st_ebno_db sims) (st_scenario sims)
                  (st_perfect_csi sims) (st_direction sims)
                  (st_carrier_frequency sims) (st_speed sims)
                  (st_ber sims ++ bers)%list (st_bler sims ++ blers)%list
                  (Some (stop - fst (time_time (w_env w)))%Q)
        /\ List.length bers = List.length (st_scenario sims)
        /\ List.length blers = List.length (st_scenario sims))
  /\ (exists evs,
        w_trace w' = (w_trace w ++ EvTime :: evs ++ [EvTime])%list
        /\ no_clock evs).
Proof.
  unfold run_study, getitem. intros Hrun.
  destruct (nth_error (st_speed sims) 0) as [speed|]; [|discriminate Hrun].
  destruct (nth_error (st_carrier_frequency sims) 0) as [c_freq|];
    [|discriminate Hrun].
  unfold bind at 1 in Hrun. cbn [ret] in Hrun.
  unfold bind at 1 in Hrun. cbn [ret] in Hrun.
  unfold bind at 1 in Hrun. rewrite call_time_run in Hrun.
  cbv beta iota in Hrun.
  match type of Hrun with
  | context [mkWorld ?e ?t ?n ?tr] => set (w1 := mkWorld e t n tr) in Hrun
  end.
  unfold bind at 1 in Hrun.
  destruct (scenario_loop sims speed c_freq (st_scenario sims) w1)
    as [[sims1 | e] w2] eqn:Hloop; [|discriminate Hrun].
  unfold bind at 1 in Hrun. rewrite call_time_run in Hrun.
  cbn in Hrun. injection Hrun as <- <-.
  destruct (scenario_loop_inv _ _ _ _ _ _ _ Hloop)
    as (Hsup & (bers & blers & Hs1 & Hb & Hbl) & (evs & Htr & Hno)).
  split; [exact Hsup|]. split.
  - exists bers, blers. eexists. rewrite Hs1. cbn.
    split; [reflexivity|]. split; assumption.
  - exists evs. split; [|exact Hno]. cbn. rewrite Htr. subst w1. cbn.
    now rewrite <- !app_assoc.
Qed.

End StudyEdges.

(** X5: without a speed or without a carrier frequency in the study
    configuration the run raises [IndexError] at once: the clock is not
    read, no model is built, the world is as before. *)
Theorem run_study_needs_speed_and_frequency {L : Sionna}
    (sims : Study) (w : World) :
  st_speed sims = [] \/ st_carrier_frequency sims = [] ->
  run_study sims w = (Py.Raise Py.IndexError, w).
Proof.
  unfold run_study, getitem. intros [Hsp | Hcf].
  - now rewrite Hsp.
  - rewrite Hcf. now destruct (st_speed sims).
Qed.

Lemma run_study_needs_speed_and_frequency_witness :
  @run_study Toy.lib
     (mkStudy (st_ebno_db MOBILITY_SIMS) ["umi"] [true; false]
              ["uplink"; "downlink"] [] [0 # 1] [] [] None)
     Toy.world0
  = (Py.Raise Py.IndexError, Toy.world0).
Proof.
  apply run_study_needs_speed_and_frequency. right. reflexivity.
Defined.

(** X6: with an empty list of scenarios the run succeeds whatever the
    lists of CSI flags and directions hold (they are never indexed): it
    reads the clock twice, records the difference as duration and changes
    nothing else. *)
Theorem run_study_without_scenarios {L : Sionna}
    (sims : Study) (w : World) (speed c_freq : Q) :
  st_scenario sims = [] ->
  nth_error (st_speed sims) 0 = Some speed ->
  nth_error (st_carrier_frequency sims) 0 = Some c_freq ->
  let t1 := time_time (w_env w) in
  let t2 := time_time (snd t1) in
  run_study sims w
  = (Py.Ok (mkStudy (st_ebno_db sims) [] (st_perfect_csi sims)
              (st_direction sims) (st_carrier_frequency sims)
              (st_speed sims) (st_ber sims) (st_bler sims)
              (Some (fst t2 - fst t1)%Q)),
     mkWorld (snd t2) (w_topology w) (w_next w)
             (w_trace w ++ [EvTime; EvTime])%list).
Proof.
  intros Hsc Hsp Hcf. cbv zeta.
  unfold run_study, getitem. rewrite Hsp, Hcf, Hsc.
  unfold bind at 1. cbn [ret]. unfold bind at 1. cbn [ret].
  unfold bind at 1. rewrite call_time_run. cbv beta iota.
  unfold bind at 1. cbn [scenario_loop ret].
  unfold bind at 1. rewrite call_time_run. cbn.
  rewrite Hsc, <- app_assoc. reflexivity.
Qed.

Lemma run_study_without_scenarios_witness :
  exists sims' (w' : @World Toy.lib),
    run_study (mkStudy (st_ebno_db MOBILITY_SIMS) [] [] []
                       [3500000000 # 1] [0 # 1] [] [] None)
              Toy.world0 = (Py.Ok sims', w')
    /\ st_ber sims' = [] /\ st_duration sims' = Some (1 # 1).
Proof.
  eexists. eexists. split.
  - apply (@run_study_without_scenarios Toy.lib _ Toy.world0
             (0 # 1) (3500000000 # 1)); reflexivity.
  - split; reflexivity.
Defined.

(** X7: as soon as there is a scenario to simulate, the study needs a
    second CSI flag and a first direction: if one is missing the run
    raises [IndexError] right after the first clock reading, before any
    model is built. *)
Theorem run_study_needs_csi_flag_and_direction {L : Sionna}
    (sims : Study) (w : World) (speed c_freq : Q) :
  st_scenario sims <> [] ->
  nth_error (st_speed sims) 0 = Some speed ->
  nth_error (st_carrier_frequency sims) 0 = Some c_freq ->
  (List.length (st_perfect_csi sims) < 2)%nat \/ st_direction sims = [] ->
  run_study sims w
  = (Py.Raise Py.IndexError,
     mkWorld (snd (time_time (w_env w))) (w_topology w) (w_next w)
             (w_trace w ++ [EvTime])%list).
Proof.
  intros Hsc Hsp Hcf Hshort.
  unfold run_study, getitem. rewrite Hsp, Hcf.
  unfold bind at 1. cbn [ret]. unfold bind at 1. cbn [ret].
  unfold bind at 1. rewrite call_time_run. cbv beta iota.
  destruct (st_scenario sims) as [|scenario rest]; [now destruct Hsc|].
  unfold bind at 1. cbn [scenario_loop]. unfold getitem.
  destruct Hshort as [Hpc | Hdir].
  - assert (Hnone : nth_error (st_perfect_csi sims) 1 = None)
      by (apply nth_error_None; cbn; lia).
    now rewrite Hnone.
  - rewrite Hdir.
    now destruct (nth_error (st_perfect_csi sims) 1).
Qed.

Lemma run_study_needs_csi_flag_and_direction_witness :
  fst (@run_study Toy.lib
         (mkStudy (st_ebno_db MOBILITY_SIMS) ["umi"] [true]
                  ["uplink"; "downlink"] [3500000000 # 1] [0 # 1]
                  [] [] None)
         Toy.world0)
  = Py.Raise Py.IndexError.
Proof.
  rewrite (@run_study_needs_csi_flag_and_direction Toy.lib _ Toy.world0
             (0 # 1) (3500000000 # 1)); try reflexivity.
  - discriminate.
  - left. cbn. lia.
Defined.

(** X8: if the list of scenarios holds a string that [__init__] does not
    know, the run raises [AttributeError] when it reaches the first such
    string: exactly the scenarios before it have been simulated, none
    after it. *)
Theorem run_study_stops_at_unknown_scenario {L : Sionna}
    (sims : Study) (w : World) (speed c_freq : Q) (perfect_csi : bool)
    (direction bad : string) (pre post : list string) :
  nth_error (st_speed sims) 0 = Some speed ->
  nth_error (st_carrier_frequency sims) 0 = Some c_freq ->
  nth_error (st_perfect_csi sims) 1 = Some perfect_csi ->
  nth_error (st_direction sims) 0 = Some direction ->
  st_scenario sims = (pre ++ bad :: post)%list ->
  Forall (fun s => In s supported_scenarios) pre ->
  ~ In bad supported_scenarios ->
  exists w',
    run_study sims w = (Py.Raise (Py.AttributeError "_channel_model"), w')
    /\ simulations (w_trace w')
       = (simulations (w_trace w)
          ++ map (fun sc => (sc, perfect_csi, direction, speed, c_freq))
                 pre)%list.
Proof.
  intros Hsp Hcf Hpc Hdir Hsc Hpre Hbad.
  unfold run_study, getitem. rewrite Hsp, Hcf, Hsc.
  unfold bind at 1. cbn [ret]. unfold bind at 1. cbn [ret].
  unfold bind at 1. rewrite call_time_run. cbv beta iota.
  match goal with
  | |- context [mkWorld ?e ?t ?n ?tr] => set (w1 := mkWorld e t n tr)
  end.
  destruct (scenario_loop_fails speed c_freq perfect_csi direction bad post
              pre Hpre Hbad sims w1 Hpc Hdir) as (w' & Hloop & Hsims).
  exists w'. unfold bind at 1. rewrite Hloop.
  split; [reflexivity|].
  rewrite Hsims. subst w1. cbn [w_trace].
  rewrite simulations_app. cbn. now rewrite app_nil_r.
Qed.

Lemma run_study_stops_at_unknown_scenario_witness :
  exists w' : @World Toy.lib,
    run_study (with_scenarios MOBILITY_SIMS ["uma"; "cdl-a"; "rma"])
              Toy.world0
    = (Py.Raise (Py.AttributeError "_channel_model"), w')
    /\ simulations (w_trace w')
       = [("uma", false, "uplink", 0 # 1, 3500000000 # 1)].
Proof.
  assert (Hpre : Forall (fun s => In s supported_scenarios) ["uma"]).
  { constructor; [simpl; tauto | constructor]. }
  assert (Hbad : ~ In "cdl-a" supported_scenarios).
  { simpl. intros H. repeat (destruct H as [H | H]; [discriminate H|]).
    exact H. }
  exact (@run_study_stops_at_unknown_scenario Toy.lib
           (with_scenarios MOBILITY_SIMS ["uma"; "cdl-a"; "rma"])
           Toy.world0 (0 # 1) (3500000000 # 1) false "uplink" "cdl-a"
           ["uma"] ["rma"] eq_refl eq_refl eq_refl eq_refl eq_refl
           Hpre Hbad).
Defined.

(** X9: a run of the study that succeeds has met supported scenarios only;
    it leaves the sweep, the scenarios and the other configuration entries
    as they were, keeps every result recorded before and appends one BER
    and one BLER list per scenario. *)
Theorem run_study_only_appends {L : Sionna}
    (sims sims' : Study) (w w' : World) :
  run_study sims w = (Py.Ok sims', w') ->
  Forall (fun s => In s supported_scenarios) (st_scenario sims)
  /\ st_ebno_db sims' = st_ebno_db sims
  /\ st_scenario sims' = st_scenario sims
  /\ st_perfect_csi sims' = st_perfect_csi sims
  /\ st_direction sims' = st_direction sims
  /\ st_carrier_frequency sims' = st_carrier_frequency sims
  /\ st_speed sims' = st_speed sims
  /\ exists bers blers,
       st_ber sims' = (st_ber sims ++ bers)%list
       /\ st_bler sims' = (st_bler sims ++ blers)%list
       /\ List.length bers = List.length (st_scenario sims)
       /\ List.length blers = List.length (st_scenario sims).
Proof.
  intros Hrun.
  destruct (run_study_inv _ _ _ _ Hrun)
    as (Hsup & (bers & blers & stop & Hs' & Hb & Hbl) & _).
  split; [exact Hsup|]. rewrite Hs'. cbn.
  do 6 (split; [reflexivity|]).
  exists bers, blers. now repeat split.
Qed.

Lemma run_study_only_appends_witness :
  exists sims' (w' : @World Toy.lib),
    run_study (mkStudy (st_ebno_db MOBILITY_SIMS) ["A"] [true; false]
                       ["uplink"] [28000000000 # 1] [30 # 1]
                       [[1 # 2]] [[1 # 1]] None)
              Toy.world0 = (Py.Ok sims', w')
    /\ exists bers, st_ber sims' = ([[1 # 2]] ++ bers)%list
                    /\ List.length bers = 1%nat.
Proof.
  destruct (@run_study Toy.lib
              (mkStudy (st_ebno_db MOBILITY_SIMS) ["A"] [true; false]
                       ["uplink"] [28000000000 # 1] [30 # 1]
                       [[1 # 2]] [[1 # 1]] None) Toy.world0)
    as [[sims' | e] w'] eqn:Hrun;
    [|vm_compute in Hrun; discriminate Hrun].
  exists sims', w'. split; [reflexivity|].
  destruct (run_study_only_appends _ _ _ _ Hrun)
    as (_ & _ & _ & _ & _ & _ & _ & bers & blers & Hber & _ & Hb & _).
  exists bers. split; assumption.
Defined.

(** A successful study is: both index reads succeed, the first clock
    reading, a successful loop over the scenarios, the second clock
    reading in the world the loop ended in. *)
Lemma run_study_inv_loop {L : Sionna} (sims sims' : Study) (w w' : World) :
  run_study sims w = (Py.Ok sims', w') ->
  exists speed c_freq sims1 w2,
    nth_error (st_speed sims) 0 = Some speed
    /\ nth_error (st_carrier_frequency sims) 0 = Some c_freq
    /\ scenario_loop sims speed c_freq (st_scenario sims)
                     (snd (call_time w)) = (Py.Ok sims1, w2)
    /\ w' = snd (call_time w2)
    /\ st_duration sims'
       = Some (fst (time_time (w_env w2)) - fst (time_time (w_env w)))%Q.
Proof.
  unfold run_study, getitem. intros Hrun.
  destruct (nth_error (st_speed sims) 0) as [speed|]; [|discriminate Hrun].
  destruct (nth_error (st_carrier_frequency sims) 0) as [c_freq|];
    [|discriminate Hrun].
  unfold bind at 1 in Hrun. cbn [ret] in Hrun.
  unfold bind at 1 in Hrun. cbn [ret] in Hrun.
  unfold bind at 1 in Hrun.
  destruct (call_time w) as [r1 w1] eqn:Htime1.
  rewrite call_time_run in Htime1. injection Htime1 as <- <-.
  unfold bind at 1 in Hrun.
  match type of Hrun with
  | context [scenario_loop _ _ _ _ ?w0] => set (w1 := w0) in *
  end.
  destruct (scenario_loop sims speed c_freq (st_scenario sims) w1)
    as [[sims1 | e] w2] eqn:Hloop; [|discriminate Hrun].
  unfold bind at 1 in Hrun.
  destruct (call_time w2) as [r2 w3] eqn:Htime2.
  rewrite call_time_run in Htime2. injection Htime2 as <- <-.
  cbn in Hrun. injection Hrun as <- <-.
  exists speed, c_freq, sims1, w2.
  split; [reflexivity|]. split; [reflexivity|].
  split; [exact Hloop|].
  split; [now rewrite call_time_run | reflexivity].
Qed.

(** X10: in a run of the study that succeeds the clock is read exactly
    twice, as the first and as the last thing the run does: the first
    reading precedes the loop over the scenarios, the second is taken in
    the world in which that loop ended, so that the recorded duration
    spans the construction of every model and every simulation; the
    duration is the second reading minus the first. *)
Theorem run_study_duration_spans_loop {L : Sionna}
    (sims sims' : Study) (w w' : World) :
  run_study sims w = (Py.Ok sims', w') ->
  exists speed c_freq sims1 w2 evs,
    nth_error (st_speed sims) 0 = Some speed
    /\ nth_error (st_carrier_frequency sims) 0 = Some c_freq
    /\ scenario_loop sims speed c_freq (st_scenario sims)
                     (snd (call_time w)) = (Py.Ok sims1, w2)
    /\ w' = snd (call_time w2)
    /\ w_trace w2 = (w_trace w ++ EvTime :: evs)%list
    /\ w_trace w' = (w_trace w ++ EvTime :: evs ++ [EvTime])%list
    /\ no_clock evs
    /\ simulations (w_trace w')
       = (simulations (w_trace w) ++ simulations evs)%list
    /\ w_env w' = snd (time_time (w_env w2))
    /\ st_duration sims'
       = Some (fst (time_time (w_env w2)) - fst (time_time (w_env w)))%Q.
Proof.
  intros Hrun.
  destruct (run_study_inv_loop _ _ _ _ Hrun)
    as (speed & c_freq & sims1 & w2 & Hsp & Hcf & Hloop & Hw' & Hdur).
  destruct (scenario_loop_inv _ _ _ _ _ _ _ Hloop)
    as (_ & _ & (evs & Htr & Hno)).
  rewrite call_time_run in Htr. cbn [snd w_trace] in Htr.
  rewrite <- app_assoc in Htr. cbn [app] in Htr.
  exists speed, c_freq, sims1, w2, evs.
  do 4 (split; [assumption|]).
  split; [exact Htr|].
  assert (Htr' : w_trace w' = (w_trace w ++ EvTime :: evs ++ [EvTime])%list).
  { rewrite Hw', call_time_run. cbn [snd w_trace]. rewrite Htr.
    now rewrite <- app_assoc. }
  split; [exact Htr'|]. split; [exact Hno|]. split.
  - rewrite Htr', simulations_app. cbn. rewrite simulations_app. cbn.
    now rewrite app_nil_r.
  - split; [|exact Hdur]. rewrite Hw', call_time_run. reflexivity.
Qed.

Lemma run_study_duration_spans_loop_witness :
  exists sims' (w' w2 : @World Toy.lib) evs,
    run_study MOBILITY_SIMS Toy.world0 = (Py.Ok sims', w')
    /\ w_trace w' = (EvTime :: evs ++ [EvTime])%list
    /\ no_clock evs
    /\ st_duration sims'
       = Some (fst (time_time (w_env w2))
               - fst (time_time (w_env Toy.world0)))%Q.
Proof.
  destruct (@run_study Toy.lib MOBILITY_SIMS Toy.world0)
    as [[sims' | e] w'] eqn:Hrun;
    [|vm_compute in Hrun; discriminate Hrun].
  destruct (run_study_duration_spans_loop _ _ _ _ Hrun)
    as (speed & c_freq & sims1 & w2 & evs & _ & _ & _ & _ & _ & Htr & Hno
        & _ & _ & Hdur).
  exists sims', w', w2, evs. split; [reflexivity|].
  split; [exact Htr|]. split; [exact Hno | exact Hdur].
Defined.

(* ------------------------------------------------------------------ *)
(** ** The plotting cells *)

Lemma choose_title_known (scenario : string) (s : Plt.State) :
  In scenario supported_scenarios ->
  Plt.choose_title scenario s
  = (Plt.Ok tt, Plt.mkState (Some (title_of scenario)) (Plt.canvas s)).
Proof.
  intros Hin.
  repeat (destruct Hin as [<- | Hin]; [reflexivity|]). destruct Hin.
Qed.

Section PlotLoop.

Variable ebno_db : list Q.
Variable c_freq : Q.

(** With enough recorded curves the loop draws one curve per scenario, in
    the order of the results, and labels each with its own title. *)
Lemma plot_loop_draws (scenarios : list string) :
  Forall (fun sc => In sc supported_scenarios) scenarios ->
  forall (todo done : list (list Q)) (labels : list Plt.Label)
         (s : Plt.State),
  (List.length scenarios <= List.length todo)%nat ->
  exists t,
    Plt.plot_loop ebno_db (done ++ todo) c_freq scenarios
                  (List.length done) labels s
    = (Plt.Ok (labels ++ map (label_of c_freq) scenarios)%list,
       Plt.mkState t
         (Plt.canvas s
          ++ curves_of ebno_db (firstn (List.length scenarios) todo))%list).
Proof.
  induction 1 as [|scenario rest Hsup _ IH]; intros todo done labels s Hlen.
  - exists (Plt.g_t s). cbn. rewrite !app_nil_r. now destruct s.
  - destruct todo as [|curve todo]; [cbn in Hlen; lia|].
    cbn [Plt.plot_loop]. unfold Plt.bind at 1.
    rewrite (choose_title_known _ _ Hsup).
    unfold Plt.bind at 1, Plt.getitem.
    rewrite nth_error_app2, Nat.sub_diag by lia. cbn [nth_error Plt.ret].
    unfold Plt.bind at 1, Plt.emit. cbn [Plt.g_t Plt.canvas].
    unfold Plt.bind at 1, Plt.read_t. cbn [Plt.g_t].
    destruct (IH todo (done ++ [curve])%list
                (labels ++ [label_of c_freq scenario])%list
                (Plt.mkState (Some (title_of scenario))
                   (Plt.canvas s ++ [Plt.semilogy ebno_db curve])%list))
      as (t & Hloop); [cbn in Hlen; lia|].
    rewrite <- app_assoc, List.length_app, Nat.add_1_r in Hloop.
    exists t. cbn [app] in Hloop. unfold label_of in Hloop at 1.
    rewrite Hloop. cbn. now rewrite <- !app_assoc.
Qed.


Lemma plot_cell_draws (metric : string) (scenarios : list string)
    (results : list (list Q)) (s : Plt.State) :
  Forall (fun sc => In sc supported_scenarios) scenarios ->
  List.length results = List.length scenarios ->
  exists t,
    Plt.plot_cell metric ebno_db results c_freq scenarios s
    = (Plt.Ok tt,
       Plt.mkState t
         (Plt.canvas s
          ++ cell_canvas metric ebno_db results
               (map (label_of c_freq) scenarios))%list).
Proof.
  intros Hsup Hlen.
  unfold Plt.plot_cell, Plt.emit.
  do 4 (unfold Plt.bind at 1; cbn [Plt.g_t Plt.canvas]).
  unfold Plt.bind at 1.
  match goal with
  | |- context [Plt.plot_loop _ _ _ _ _ _ ?s0] =>
      destruct (plot_loop_draws scenarios Hsup results [] [] s0
                  ltac:(lia)) as (t & Hloop)
  end.
  cbn [app List.length] in Hloop.
  rewrite Hloop.
  unfold Plt.bind at 1. cbn.
  exists t. rewrite <- Hlen, firstn_all. unfold cell_canvas.
  now rewrite <- !app_assoc.
Qed.

End PlotLoop.

(** X11: after a run of the study that started without results and
    succeeded, both plotting cells succeed.  Each draws every recorded
    curve of its metric once, in the order of the scenarios, against the
    sweep, and its legend has one label per scenario that carries the name
    of that scenario's channel model. *)
Theorem plots_after_study {L : Sionna}
    (sims sims' : Study) (w w' : World) (c_freq : Q) :
  run_study sims w = (Py.Ok sims', w') ->
  st_ber sims = [] ->
  st_bler sims = [] ->
  exists t,
    Plt.plot_cells sims' c_freq Plt.start
    = (Plt.Ok tt,
       Plt.mkState t
         (cell_canvas "BLER" (st_ebno_db sims) (st_bler sims')
                      (map (label_of c_freq) (st_scenario sims))
          ++ cell_canvas "BER" (st_ebno_db sims) (st_ber sims')
                         (map (label_of c_freq) (st_scenario sims)))%list)
    /\ List.length (st_bler sims') = List.length (st_scenario sims)
    /\ List.length (st_ber sims') = List.length (st_scenario sims).
Proof.
  intros Hrun Hber Hbler.
  destruct (run_study_inv _ _ _ _ Hrun)
    as (Hsup & (bers & blers & stop & Hs' & Hb & Hbl) & _).
  rewrite Hber, Hbler in Hs'. cbn [app] in Hs'. subst sims'.
  cbn [st_ber st_bler].
  unfold Plt.plot_cells. cbn [st_ebno_db st_bler st_ber st_scenario].
  destruct (plot_cell_draws (st_ebno_db sims) c_freq "BLER"
              (st_scenario sims) blers Plt.start Hsup Hbl) as (t1 & H1).
  unfold Plt.bind at 1. rewrite H1.
  destruct (plot_cell_draws (st_ebno_db sims) c_freq "BER"
              (st_scenario sims) bers
              (Plt.mkState t1
                 (Plt.canvas Plt.start
                  ++ cell_canvas "BLER" (st_ebno_db sims) blers
                       (map (label_of c_freq) (st_scenario sims)))%list)
              Hsup Hb) as (t2 & H2).
  rewrite H2. exists t2. cbn. now repeat split.
Qed.

Lemma plots_after_study_witness :
  exists sims' (w' : @World Toy.lib) t curve_bler curve_ber,
    run_study MOBILITY_SIMS Toy.world0 = (Py.Ok sims', w')
    /\ st_bler sims' = [curve_bler] /\ st_ber sims' = [curve_ber]
    /\ Plt.plot_cells sims' (3500000000 # 1) Plt.start
       = (Plt.Ok tt,
          Plt.mkState t
            (cell_canvas "BLER" (st_ebno_db MOBILITY_SIMS) [curve_bler]
               [Plt.mkLabel "UMi" "Imperf."
                  (Py.div (3500000000 # 1) (1000000000 # 1))]
             ++ cell_canvas "BER" (st_ebno_db MOBILITY_SIMS) [curve_ber]
                  [Plt.mkLabel "UMi" "Imperf."
                     (Py.div (3500000000 # 1) (1000000000 # 1))])%list).
Proof.
  destruct (@run_study Toy.lib MOBILITY_SIMS Toy.world0)
    as [[sims' | e] w'] eqn:Hrun;
    [|vm_compute in Hrun; discriminate Hrun].
  destruct (plots_after_study MOBILITY_SIMS sims' Toy.world0 w'
              (3500000000 # 1) Hrun eq_refl eq_refl)
    as (t & Hplot & Hbl & Hb).
  destruct (st_bler sims') as [|curve_bler [|]] eqn:Ebl;
    try discriminate Hbl.
  destruct (st_ber sims') as [|curve_ber [|]] eqn:Eb;
    try discriminate Hb.
  exists sims', w', t, curve_bler, curve_ber.
  split; [reflexivity|]. split; [exact Ebl|]. split; [exact Eb|].
  rewrite Hplot. reflexivity.
Defined.


